(** * Promoter-window enrichment scoring (scripts/analyze_enrichment_NSC.py)

    A shallow embedding of the enrichment pipeline: gene-name
    standardisation, the loading check, the promoter-window peak lookup, the
    seven scoring lambdas, the per-method loop of [analyze_enrichment] and the
    CSV writes of the script's top level.

    Modelling conventions.
    - Python exceptions are values of [exn]; code that can raise returns
      [result A].
    - A pandas DataFrame of peaks is either [EmptyFrame], the column-less
      [pd.DataFrame()], or [Frame rows], a table carrying the ten narrowPeak
      columns (possibly with zero rows).  Subscripting or grouping
      [EmptyFrame] by a column name raises [KeyError], as pandas does.
    - float64 values are [float64]: an exact rational or one of the
      sentinels +inf, -inf, nan.  Special values follow IEEE 754; rounding,
      overflow and the sign of zero are abstracted.
    - The peak tables modelled are those whose every line carries its
      chromosome and its two integer coordinates.  The float columns
      signalValue, pValue and qValue hold whatever [pd.read_csv] reads: a
      number, nan for a field that is empty or missing from a short line,
      or an infinity the file spells out.  The columns name, score, strand
      and peak are carried along; the code never reads them.
    - scipy's [fisher_exact], numpy's [log10] on positive finite numbers and
      the algorithm behind [DataFrame.sort_values] are not part of the
      repository: they are parameters of the model. *)

From Stdlib Require Import ZArith QArith Qreduction Bool List Lia.
From Stdlib Require Import Ascii String DecimalString.
Import ListNotations.

Local Open Scope string_scope.
Local Open Scope Z_scope.

(** ** Exceptions and results *)

Inductive exn : Type :=
| KeyError (key : string)
| ValueError (msg : string)
| IndexError (msg : string)
| FileNotFoundError (msg : string).

Inductive result (A : Type) : Type :=
| Ok (a : A)
| Raise (e : exn).

Arguments Ok {A} a.
Arguments Raise {A} e.

Definition bind {A B : Type} (m : result A) (k : A -> result B) : result B :=
  match m with
  | Ok a => k a
  | Raise e => Raise e
  end.

Notation "x <- m ;; k" := (bind m (fun x => k))
  (at level 61, m at next level, right associativity).

(** ** float64 with its sentinels *)

Inductive float64 : Type :=
| Fin (q : Q)
| PInf
| NInf
| NaN.

Definition fzero : float64 := Fin 0.
Definition fone : float64 := Fin 1.

Definition of_Z (z : Z) : float64 := Fin (inject_Z z).

Definition Qpos_b (q : Q) : bool := (0 <? Qnum q)%Z.
Definition Qneg_b (q : Q) : bool := (Qnum q <? 0)%Z.
Definition Qzero_b (q : Q) : bool := (Qnum q =? 0)%Z.

Definition Qlt_b (a b : Q) : bool :=
  (Qnum a * Zpos (Qden b) <? Qnum b * Zpos (Qden a))%Z.

Definition Qle_b (a b : Q) : bool :=
  (Qnum a * Zpos (Qden b) <=? Qnum b * Zpos (Qden a))%Z.

Definition isnan (x : float64) : bool :=
  match x with NaN => true | _ => false end.

(** [x < y]; false as soon as one side is nan. *)
Definition flt (x y : float64) : bool :=
  match x, y with
  | NaN, _ | _, NaN => false
  | Fin a, Fin b => Qlt_b a b
  | NInf, NInf => false
  | NInf, _ => true
  | _, PInf => match x with PInf => false | _ => true end
  | PInf, _ => false
  | Fin _, NInf => false
  end.

Definition fgt (x y : float64) : bool := flt y x.

Definition fle (x y : float64) : bool :=
  match x, y with
  | NaN, _ | _, NaN => false
  | Fin a, Fin b => Qle_b a b
  | NInf, _ => true
  | _, PInf => true
  | PInf, _ => false
  | Fin _, NInf => false
  end.

Definition fge (x y : float64) : bool := fle y x.

Definition fneg (x : float64) : float64 :=
  match x with
  | Fin q => Fin (Qred (- q))
  | PInf => NInf
  | NInf => PInf
  | NaN => NaN
  end.

Definition fadd (x y : float64) : float64 :=
  match x, y with
  | NaN, _ | _, NaN => NaN
  | Fin a, Fin b => Fin (Qred (a + b))
  | PInf, NInf | NInf, PInf => NaN
  | PInf, _ | _, PInf => PInf
  | NInf, _ | _, NInf => NInf
  end.

(** The infinity carrying the sign of the rational [q], nan when [q] is 0. *)
Definition inf_signed (positive : bool) (q : Q) : float64 :=
  if Qzero_b q then NaN
  else if Bool.eqb positive (Qpos_b q) then PInf else NInf.

Definition fmul (x y : float64) : float64 :=
  match x, y with
  | NaN, _ | _, NaN => NaN
  | Fin a, Fin b => Fin (Qred (a * b))
  | PInf, Fin q | Fin q, PInf => inf_signed true q
  | NInf, Fin q | Fin q, NInf => inf_signed false q
  | PInf, PInf | NInf, NInf => PInf
  | PInf, NInf | NInf, PInf => NInf
  end.

(** numpy float64 division: a zero divisor gives an infinity or nan (with a
    RuntimeWarning), never an exception. *)
Definition fdiv (x y : float64) : float64 :=
  match x, y with
  | NaN, _ | _, NaN => NaN
  | Fin a, Fin b =>
      if Qzero_b b then
        if Qzero_b a then NaN else if Qpos_b a then PInf else NInf
      else Fin (Qred (a / b))
  | Fin _, PInf | Fin _, NInf => Fin 0
  | PInf, Fin q => if Qneg_b q then NInf else PInf
  | NInf, Fin q => if Qneg_b q then PInf else NInf
  | PInf, PInf | PInf, NInf | NInf, PInf | NInf, NInf => NaN
  end.

(** Python's builtin [max(x, y)] on two arguments: the first one unless the
    second compares strictly greater. *)
Definition py_max (x y : float64) : float64 := if fgt y x then y else x.

Definition np_maximum (x y : float64) : float64 :=
  match x, y with
  | NaN, _ | _, NaN => NaN
  | _, _ => if flt x y then y else x
  end.

Definition np_minimum (x y : float64) : float64 :=
  match x, y with
  | NaN, _ | _, NaN => NaN
  | _, _ => if flt y x then y else x
  end.

(** [np.clip(x, lo, hi)] = [minimum(maximum(x, lo), hi)]. *)
Definition np_clip (x lo hi : float64) : float64 :=
  np_minimum (np_maximum x lo) hi.

(** [np.sum] and [np.mean] of a pandas Series dispatch to [Series.sum] and
    [Series.mean], which skip nan entries. *)
Definition dropna (xs : list float64) : list float64 :=
  filter (fun x => negb (isnan x)) xs.

Definition np_sum (xs : list float64) : float64 :=
  fold_left fadd (dropna xs) fzero.

Definition np_mean (xs : list float64) : float64 :=
  match dropna xs with
  | [] => NaN
  | ys => fdiv (fold_left fadd ys fzero) (of_Z (Z.of_nat (List.length ys)))
  end.

(** ** Strings *)

(** [str.isspace] on the code points below 256. *)
Definition is_space (c : ascii) : bool :=
  let n := N_of_ascii c in
  ((9 <=? n) && (n <=? 13) || (28 <=? n) && (n <=? 32)
   || (n =? 133) || (n =? 160))%N.

(** [s.split('.')[0]]: the text before the first dot. *)
Fixpoint split_dot_head (s : string) : string :=
  match s with
  | EmptyString => EmptyString
  | String c r => if Ascii.eqb c "." then EmptyString
                  else String c (split_dot_head r)
  end.

Definition startswith (s p : string) : bool := String.prefix p s.

Fixpoint drop (n : nat) (s : string) : string :=
  match n, s with
  | O, _ => s
  | S _, EmptyString => EmptyString
  | S m, String _ r => drop m r
  end.

Fixpoint lstrip (s : string) : string :=
  match s with
  | EmptyString => EmptyString
  | String c r => if is_space c then lstrip r else s
  end.

Fixpoint rstrip (s : string) : string :=
  match s with
  | EmptyString => EmptyString
  | String c r =>
      match rstrip r with
      | EmptyString => if is_space c then EmptyString
                       else String c EmptyString
      | r' => String c r'
      end
  end.

Definition strip (s : string) : string := rstrip (lstrip s).

Definition prefixes : list string := ["gene-"; "Gene-"; "GENE-"].

Definition remove_prefix (name prefix : string) : string :=
  if startswith name prefix then drop (String.length prefix) name else name.

(** [standardize_gene_name]; [None] stands for a missing value
    ([pd.isna]), [Some s] for the text [str(gene_name)]. *)
Definition standardize_gene_name (gene_name : option string) : option string :=
  match gene_name with
  | None => None
  | Some s =>
      let s := split_dot_head s in
      let s := fold_left remove_prefix prefixes s in
      Some (strip s)
  end.

Definition Z_to_string (z : Z) : string := NilZero.string_of_int (Z.to_int z).

(** ** Data model *)

(** A row of a narrowPeak table: the ten columns named in [load_peak_file],
    and the [sample] column that [get_peaks_near_gene] attaches. *)
Module Peak.
Record t : Type := mk {
  chr : string;
  start : Z;
  end_ : Z;
  name : string;
  score : Z;
  strand : string;
  signalValue : float64;
  pValue : float64;
  qValue : float64;
  peak : Z;
  sample : option string
}.

Definition set_sample (s : string) (p : t) : t :=
  mk (chr p) (start p) (end_ p) (name p) (score p) (strand p)
     (signalValue p) (pValue p) (qValue p) (peak p) (Some s).

Definition set_signalValue (v : float64) (p : t) : t :=
  mk (chr p) (start p) (end_ p) (name p) (score p) (strand p)
     v (pValue p) (qValue p) (peak p) (sample p).
End Peak.

(** A row of the gene annotation table ([name_to_info] values). *)
Module Gene.
Record t : Type := mk {
  chr : string;
  feature : string;
  start : Z;
  end_ : Z;
  strand : string;
  gene_name : option string;
  gene_id : option string
}.
End Gene.

(** A row of the differential-expression table. *)
Module Dea.
Record row : Type := mk {
  gene : option string;
  log2FoldChange : float64;
  padj : float64
}.
End Dea.

(** One dictionary appended to [enrichment_scores]. *)
Module Rec.
Record t : Type := mk {
  gene : string;
  enrichment_score : float64;
  log2FoldChange : float64;
  padj : float64;
  exo_peaks : string;
  endo_peaks : string;
  num_exo_peaks : nat;
  num_endo_peaks : nat
}.
End Rec.

Inductive DataFrame : Type :=
| EmptyFrame
| Frame (rows : list Peak.t).

Definition frame_rows (df : DataFrame) : list Peak.t :=
  match df with
  | EmptyFrame => []
  | Frame rows => rows
  end.

(** [len(df)] and [df.empty]. *)
Definition df_len (df : DataFrame) : nat := List.length (frame_rows df).

Definition df_empty (df : DataFrame) : bool :=
  match frame_rows df with
  | [] => true
  | _ :: _ => false
  end.

(** [df[name]]: a [KeyError] on the column-less frame. *)
Definition column {A : Type} (name : string) (f : Peak.t -> A)
  (df : DataFrame) : result (list A) :=
  match df with
  | EmptyFrame => Raise (KeyError name)
  | Frame rows => Ok (map f rows)
  end.

(** A Python dict, in insertion order. *)
Definition dict (A : Type) : Type := list (string * A).

Fixpoint dict_get {A : Type} (d : dict A) (k : string) : option A :=
  match d with
  | [] => None
  | (k', v) :: rest => if String.eqb k' k then Some v else dict_get rest k
  end.

Definition dict_values {A : Type} (d : dict A) : list A := map snd d.

Fixpoint zip_with {A B C : Type} (f : A -> B -> C) (xs : list A)
  (ys : list B) : list C :=
  match xs, ys with
  | x :: xs', y :: ys' => f x y :: zip_with f xs' ys'
  | _, _ => []
  end.

(** ** Loading ([load_data]) *)

Definition PROMOTER_WINDOW : Z := 2000.

(** What reading a narrowPeak path yields: no such file, a failing
    [pd.read_csv], or the parsed rows. *)
Inductive peak_file : Type :=
| FileMissing
| ReadError
| FileRows (rows : list Peak.t).

(** What opening a BAM path yields. *)
Inductive bam_file : Type :=
| BamMissing
| BamNoIndex
| BamError
| BamCount (n : Z).

Definition validate_peak_file (df : DataFrame) : DataFrame :=
  if df_empty df then df
  else
    match df with
    | EmptyFrame => EmptyFrame
    | Frame rows =>
        let rows :=
          if existsb (fun p => Peak.end_ p <=? Peak.start p) rows
          then filter (fun p => Peak.start p <? Peak.end_ p) rows
          else rows in
        let rows :=
          if existsb (fun p => flt (Peak.signalValue p) (Fin 0)) rows
          then filter (fun p => fge (Peak.signalValue p) (Fin 0)) rows
          else rows in
        Frame rows
    end.

Definition load_peak_file (f : peak_file) : DataFrame :=
  match f with
  | FileMissing => EmptyFrame
  | ReadError => EmptyFrame
  | FileRows rows => validate_peak_file (Frame rows)
  end.

Definition calculate_sequencing_depth_safe (b : bam_file) : Z :=
  match b with
  | BamMissing => 1
  | BamNoIndex => 1
  | BamError => 1
  | BamCount n => Z.max n 1
  end.

(** [signalValue.clip(lower=0) * (1e6 / depth)] on a finite value. *)
Definition normalize_signal (depth : Z) (v : Q) : Q :=
  Qred ((if Qlt_b v 0 then 0 else v) * (1000000 / inject_Z depth)).

(** The same on any float64: [clip(lower=0)] leaves nan and +inf and raises
    -inf to 0, and the product with the positive scale keeps nan and
    +inf. *)
Definition normalize_value (depth : Z) (v : float64) : float64 :=
  match v with
  | Fin q => Fin (normalize_signal depth q)
  | PInf => PInf
  | NInf => Fin 0
  | NaN => NaN
  end.

(** The normalisation of one sample, applied to a non-empty table only. *)
Definition normalize (depth : Z) (df : DataFrame) : DataFrame :=
  if df_empty df then df
  else
    match df with
    | EmptyFrame => EmptyFrame
    | Frame rows =>
        Frame (map (fun p =>
                 Peak.set_signalValue
                   (normalize_value depth (Peak.signalValue p)) p) rows)
    end.

Definition name_to_info_t : Type := dict Gene.t.

(** Everything the script reads from outside. *)
Record World : Type := mkWorld {
  DATA_DIR : string;
  dea_csv : result (list Dea.row);
  peak_files : string -> peak_file;
  bam_files : string -> bam_file;
  load_gene_annotations : result (list Gene.t * name_to_info_t)
}.

Definition exo_samples : list string := ["NSCv1"; "NSCv2"; "NSCv3"].
Definition endo_samples : list string := ["NSCM1"; "NSCM2"; "NSCM3"].

Definition load_sample (w : World) (sample : string) : string * DataFrame :=
  let peak_path := DATA_DIR w ++ "/peaks/" ++ sample ++ "_peaks.narrowPeak" in
  let df := load_peak_file (peak_files w peak_path) in
  let depth :=
    calculate_sequencing_depth_safe
      (bam_files w (DATA_DIR w ++ "/aligned/" ++ sample ++ ".bam")) in
  (sample, normalize depth df).

Definition Loaded : Type :=
  (list Dea.row * dict DataFrame * dict DataFrame
   * list Gene.t * name_to_info_t)%type.

Definition load_data (w : World) : result Loaded :=
  dea_nsc <- dea_csv w ;;
  let peaks_exo := map (load_sample w) exo_samples in
  let peaks_endo := map (load_sample w) endo_samples in
  if forallb df_empty (dict_values peaks_exo)
     || forallb df_empty (dict_values peaks_endo)
  then Raise (ValueError "Insufficient peak data for analysis")
  else
    ann <- load_gene_annotations w ;;
    Ok (dea_nsc, peaks_exo, peaks_endo, fst ann, snd ann).

(** ** Promoter lookup ([get_peaks_near_gene]) *)

(** The promoter region computed at the head of [get_peaks_near_gene]. *)
Definition promoter_region (gene_info : Gene.t) (window : Z) : Z * Z :=
  if String.eqb (Gene.strand gene_info) "+"
  then (Z.max 0 (Gene.start gene_info - window),
        Gene.start gene_info + window)
  else (Z.max 0 (Gene.end_ gene_info - window),
        Gene.end_ gene_info + window).

Definition overlaps (gene_info : Gene.t) (region : Z * Z) (p : Peak.t) : bool :=
  String.eqb (Peak.chr p) (Gene.chr gene_info)
  && (Peak.start p <=? snd region) && (fst region <=? Peak.end_ p).

(** The loop over [peaks_dict.items()]: one list of tagged rows per sample
    that has an overlapping peak. *)
Fixpoint collect_overlapping (gene_info : Gene.t) (region : Z * Z)
  (items : dict DataFrame) : result (list (list Peak.t)) :=
  match items with
  | [] => Ok []
  | (sample, peaks) :: rest =>
      match peaks with
      | EmptyFrame => Raise (KeyError "chr")
      | Frame rows =>
          let overlapping := filter (overlaps gene_info region) rows in
          all_peaks <- collect_overlapping gene_info region rest ;;
          match overlapping with
          | [] => Ok all_peaks
          | _ :: _ => Ok (map (Peak.set_sample sample) overlapping :: all_peaks)
          end
      end
  end.

Definition get_peaks_near_gene (gene : string) (peaks_dict : dict DataFrame)
  (gene_annotations : list Gene.t) (name_to_info : name_to_info_t)
  (window : Z) : result DataFrame :=
  match standardize_gene_name (Some gene) with
  | None => Ok EmptyFrame
  | Some gene_std =>
      match dict_get name_to_info gene_std with
      | None => Ok EmptyFrame
      | Some gene_info =>
          let region := promoter_region gene_info window in
          all_peaks <- collect_overlapping gene_info region peaks_dict ;;
          match all_peaks with
          | [] => Ok EmptyFrame
          | _ :: _ => Ok (Frame (List.concat all_peaks))
          end
      end
  end.

Definition calculate_total_genome_peaks (peaks_exo peaks_endo : dict DataFrame)
  : Z :=
  let total d := fold_left Z.add (map (fun df => Z.of_nat (df_len df))
                                      (dict_values d)) 0 in
  total peaks_exo + total peaks_endo.

(** ** Scoring methods ([define_enrichment_methods]) *)

Definition locus : Type := (string * Z * Z)%type.

Definition locus_of (p : Peak.t) : locus :=
  (Peak.chr p, Peak.start p, Peak.end_ p).

Definition locus_eq_dec (x y : locus) : {x = y} + {x <> y}.
Proof.
  repeat decide equality; try apply Z.eq_dec; try apply string_dec.
Defined.

(** [len(df.groupby(['chr', 'start', 'end']))]: the number of distinct loci;
    a [KeyError] on the column-less frame. *)
Definition groupby_len (df : DataFrame) : result Z :=
  match df with
  | EmptyFrame => Raise (KeyError "chr")
  | Frame rows =>
      Ok (Z.of_nat (List.length (nodup locus_eq_dec (map locus_of rows))))
  end.

Definition signal (p : Peak.t) : float64 := Peak.signalValue p.

Definition nonempty (df : DataFrame) : bool := (0 <? df_len df)%nat.

Definition method_t : Type := DataFrame -> DataFrame -> result float64.

Definition signal_ratio : method_t := fun exo endo =>
  if nonempty exo && nonempty endo then
    s_exo <- column "signalValue" signal exo ;;
    s_endo <- column "signalValue" signal endo ;;
    Ok (fdiv (np_mean s_exo) (np_mean s_endo))
  else if nonempty exo then Ok PInf
  else Ok fzero.

Definition peak_count : method_t := fun exo endo =>
  n_exo <- groupby_len exo ;;
  n_endo <- groupby_len endo ;;
  Ok (fdiv (of_Z n_exo) (of_Z (Z.max n_endo 1))).

Definition combined_score : method_t := fun exo endo =>
  if nonempty exo then
    s_exo <- column "signalValue" signal exo ;;
    n_exo <- groupby_len exo ;;
    s_endo <- column "signalValue" signal endo ;;
    n_endo <- groupby_len endo ;;
    Ok (fdiv (fmul (np_mean s_exo) (of_Z n_exo))
             (py_max (fmul (np_mean s_endo) (of_Z n_endo)) fone))
  else Ok fzero.

(** [signalValue * (end - start)], summed. *)
Definition weighted_sum (df : DataFrame) : result float64 :=
  s <- column "signalValue" signal df ;;
  e <- column "end" Peak.end_ df ;;
  b <- column "start" Peak.start df ;;
  Ok (np_sum (zip_with fmul s (map of_Z (zip_with Z.sub e b)))).

Definition width_weighted : method_t := fun exo endo =>
  if nonempty exo then
    num <- weighted_sum exo ;;
    den <- weighted_sum endo ;;
    Ok (fdiv num (py_max den fone))
  else Ok fzero.

(** [np.sum(end - start) * np.mean(signalValue)]. *)
Definition coverage (df : DataFrame) : result float64 :=
  e <- column "end" Peak.end_ df ;;
  b <- column "start" Peak.start df ;;
  s <- column "signalValue" signal df ;;
  Ok (fmul (of_Z (fold_left Z.add (zip_with Z.sub e b) 0)) (np_mean s)).

Definition coverage_score : method_t := fun exo endo =>
  if nonempty exo then
    num <- coverage exo ;;
    den <- coverage endo ;;
    Ok (fdiv num (py_max den fone))
  else Ok fzero.

Section Scoring.

(** [scipy.stats.fisher_exact] on a 2x2 table: (odds ratio, p-value), or an
    exception. *)
Variable fisher_exact : list (list Z) -> result (float64 * float64).

(** The base-10 logarithm of a positive finite number, as numpy rounds it. *)
Variable log10 : Q -> Q.

Variable total_genome_peaks : Z.

Definition statistical : method_t := fun exo endo =>
  if nonempty exo || nonempty endo then
    a <- groupby_len exo ;;
    b <- groupby_len endo ;;
    c <- groupby_len exo ;;
    d <- groupby_len endo ;;
    r <- fisher_exact [[a; b];
                       [total_genome_peaks - c; total_genome_peaks - d]] ;;
    Ok (snd r)
  else Ok NaN.

(** [np.log10]: -inf at 0 and nan below 0, each with a RuntimeWarning. *)
Definition np_log10 (x : float64) : float64 :=
  match x with
  | Fin q => if Qzero_b q then NInf
             else if Qpos_b q then Fin (Qred (log10 (Qred q)))
             else NaN
  | PInf => PInf
  | NInf => NaN
  | NaN => NaN
  end.

(** [np.clip(-np.log10(qValue), 0, 50)] for one q-value. *)
Definition q_weight (q : float64) : float64 :=
  np_clip (fneg (np_log10 q)) (Fin 0) (Fin 50).

(** A peak's term [(end - start) * signalValue * clip(...)]. *)
Definition area_term (width : Z) (s q : float64) : float64 :=
  fmul (fmul (of_Z width) s) (q_weight q).

Definition area (df : DataFrame) : result float64 :=
  e <- column "end" Peak.end_ df ;;
  b <- column "start" Peak.start df ;;
  s <- column "signalValue" signal df ;;
  q <- column "qValue" Peak.qValue df ;;
  Ok (np_sum (zip_with (fun ws q => area_term (fst ws) (snd ws) q)
                (combine (zip_with Z.sub e b) s) q)).

Definition area_integration : method_t := fun exo endo =>
  if nonempty exo then
    num <- area exo ;;
    den <- area endo ;;
    Ok (fdiv num (py_max den fone))
  else Ok fzero.

Definition define_enrichment_methods : dict method_t :=
  [("signal_ratio", signal_ratio);
   ("peak_count", peak_count);
   ("combined_score", combined_score);
   ("statistical", statistical);
   ("width_weighted", width_weighted);
   ("coverage_score", coverage_score);
   ("area_integration", area_integration)].

End Scoring.

(** ** The per-method loop ([analyze_enrichment]) *)

(** The table after [dea['gene_std'] = dea['gene'].apply(...)]. *)
Definition with_gene_std (dea : list Dea.row)
  : list (Dea.row * option string) :=
  map (fun r => (r, standardize_gene_name (Dea.gene r))) dea.

Definition upregulated (r : Dea.row * option string) : bool :=
  fgt (Dea.log2FoldChange (fst r)) (Fin (1 # 2))
  && flt (Dea.padj (fst r)) (Fin (1 # 20))
  && match snd r with Some _ => true | None => false end.

Definition upreg_genes (dea : list (Dea.row * option string)) : list string :=
  flat_map (fun r => match snd r with Some g => [g] | None => [] end)
           (filter upregulated dea).

Definition gene_std_is (gene : string) (r : Dea.row * option string) : bool :=
  match snd r with
  | Some g => String.eqb g gene
  | None => false
  end.

(** [df.iloc[0]]. *)
Definition iloc0 {A : Type} (rows : list A) : result A :=
  match rows with
  | [] => Raise (IndexError "single positional indexer is out-of-bounds")
  | r :: _ => Ok r
  end.

Definition coord (p : Peak.t) : string :=
  Peak.chr p ++ ":" ++ Z_to_string (Peak.start p)
  ++ "-" ++ Z_to_string (Peak.end_ p).

Definition coords (df : DataFrame) : list string :=
  if df_empty df then [] else map coord (frame_rows df).

Definition join_coords (cs : list string) : string :=
  match cs with
  | [] => "None"
  | _ :: _ => String.concat ";" cs
  end.

Section Analysis.

Variable dea : list (Dea.row * option string).
Variables peaks_exo peaks_endo : dict DataFrame.
Variable gene_annotations : list Gene.t.
Variable name_to_info : name_to_info_t.

(** The body of the [try] for one gene: [Ok None] when nothing is
    appended. *)
Definition score_gene (method_func : method_t) (gene : string)
  : result (option Rec.t) :=
  exo_peaks <- get_peaks_near_gene gene peaks_exo gene_annotations
                 name_to_info PROMOTER_WINDOW ;;
  endo_peaks <- get_peaks_near_gene gene peaks_endo gene_annotations
                  name_to_info PROMOTER_WINDOW ;;
  if negb (df_empty exo_peaks) || negb (df_empty endo_peaks) then
    score <- method_func exo_peaks endo_peaks ;;
    dea_info <- iloc0 (filter (gene_std_is gene) dea) ;;
    if negb (isnan score) then
      let exo_coords := coords exo_peaks in
      let endo_coords := coords endo_peaks in
      Ok (Some (Rec.mk gene score
                  (Dea.log2FoldChange (fst dea_info))
                  (Dea.padj (fst dea_info))
                  (join_coords exo_coords) (join_coords endo_coords)
                  (List.length exo_coords) (List.length endo_coords)))
    else Ok None
  else Ok None.

(** One iteration of the gene loop: an exception is printed and the gene
    skipped. *)
Definition process_gene (method_func : method_t) (gene : string)
  : list Rec.t :=
  match score_gene method_func gene with
  | Ok (Some r) => [r]
  | Ok None => []
  | Raise _ => []
  end.

Definition enrichment_scores (method_func : method_t) : list Rec.t :=
  flat_map (process_gene method_func) (upreg_genes dea).

End Analysis.

(** The column reads of [plot_peak_width_distributions] and
    [plot_detailed_peak_width_distributions]: [peaks['end'] - peaks['start']]
    for every sample.  The drawing itself is not modelled. *)
Fixpoint peak_widths (items : dict DataFrame) : result (list Z) :=
  match items with
  | [] => Ok []
  | (_, peaks) :: rest =>
      e <- column "end" Peak.end_ peaks ;;
      b <- column "start" Peak.start peaks ;;
      widths <- peak_widths rest ;;
      Ok (zip_with Z.sub e b ++ widths)%list
  end.

Definition plot_peak_width_distributions (peaks_exo peaks_endo : dict DataFrame)
  : result unit :=
  _ <- peak_widths peaks_exo ;;
  _ <- peak_widths peaks_endo ;;
  Ok tt.

(** The CSV files on disk, by path: the rows last written, in order. *)
Definition csv_store : Type := string -> option (list Rec.t).

Definition to_csv (path : string) (df : list Rec.t) (fs : csv_store)
  : csv_store :=
  fun p => if String.eqb p path then Some df else fs p.

Definition csv_path (data_dir method_name : string) : string :=
  data_dir ++ "/enrichment_" ++ method_name ++ "_NSC.csv".

Definition keep_results (scored : dict (list Rec.t)) : dict (list Rec.t) :=
  filter (fun kv => match snd kv with [] => false | _ :: _ => true end) scored.

Section Pipeline.

Variable fisher_exact : list (list Z) -> result (float64 * float64).
Variable log10 : Q -> Q.

(** [DataFrame.sort_values('enrichment_score', ascending=False)]. *)
Variable sort_values : list Rec.t -> list Rec.t.

Definition write_sorted (data_dir : string) (fs : csv_store)
  (kv : string * list Rec.t) : csv_store :=
  to_csv (csv_path data_dir (fst kv)) (sort_values (snd kv)) fs.

Definition write_plain (data_dir : string) (fs : csv_store)
  (kv : string * list Rec.t) : csv_store :=
  to_csv (csv_path data_dir (fst kv)) (snd kv) fs.

(** [analyze_enrichment]: the [results] dict and the files after its
    sorted writes. *)
Definition analyze_enrichment (data_dir : string) (dea0 : list Dea.row)
  (peaks_exo peaks_endo : dict DataFrame) (gene_annotations : list Gene.t)
  (name_to_info : name_to_info_t) (fs : csv_store)
  : dict (list Rec.t) * csv_store :=
  let dea := with_gene_std dea0 in
  let total_genome_peaks :=
    calculate_total_genome_peaks peaks_exo peaks_endo in
  let methods :=
    define_enrichment_methods fisher_exact log10 total_genome_peaks in
  let results :=
    keep_results
      (map (fun m => (fst m,
                      enrichment_scores dea peaks_exo peaks_endo
                        gene_annotations name_to_info (snd m)))
           methods) in
  (results, fold_left (write_sorted data_dir) results fs).

(** The script's top level, as far as the files
    [enrichment_<method>_NSC.csv] go: load, read the peak widths for the two
    width plots, analyse, then write every table of [results] again.  The
    store follows those files only: the figures and the two summary tables
    are written to other paths, which it says nothing about, and the
    plotting and summary steps between and after the writes are taken to
    return. *)
Definition main (w : World) (fs : csv_store)
  : result (dict (list Rec.t) * csv_store) :=
  loaded <- load_data w ;;
  let '(dea, peaks_exo, peaks_endo, gene_annotations, name_to_info) :=
    loaded in
  _ <- plot_peak_width_distributions peaks_exo peaks_endo ;;
  _ <- plot_peak_width_distributions peaks_exo peaks_endo ;;
  let '(results, fs1) :=
    analyze_enrichment (DATA_DIR w) dea peaks_exo peaks_endo
      gene_annotations name_to_info fs in
  Ok (results, fold_left (write_plain (DATA_DIR w)) results fs1).

End Pipeline.

(** ** Gene annotation index ([load_gene_annotations]) *)

Definition dquote : ascii := "034"%char.

(** [s.split(sep)] for a one-character separator: every occurrence splits,
    so the result has one more item than [s] has separators. *)
Fixpoint py_split (sep : ascii) (s : string) : list string :=
  match s with
  | EmptyString => [EmptyString]
  | String c r =>
      if Ascii.eqb c sep then EmptyString :: py_split sep r
      else match py_split sep r with
           | h :: t => String c h :: t
           | [] => [String c EmptyString]
           end
  end.

(** The dictionary [info] of [extract_gene_info]. *)
Module Info.
Record t : Type := mk {
  gene_name : option string;
  gene_id : option string;
  gene_type : option string
}.

Definition empty : t := mk None None None.
End Info.

(** The second item of the field split at double quotes: the text between
    the first two of them. *)
Definition quoted_value (field : string) : result string :=
  match py_split dquote field with
  | _ :: v :: _ => Ok v
  | _ => Raise (IndexError "list index out of range")
  end.

(** One turn of the loop over [attr.split(';')]. *)
Definition extract_field (info : Info.t) (field : string) : result Info.t :=
  let field := strip field in
  if startswith field "gene_name" then
    v <- quoted_value field ;;
    Ok (Info.mk (Some v) (Info.gene_id info) (Info.gene_type info))
  else if startswith field "gene_id" then
    v <- quoted_value field ;;
    Ok (Info.mk (Info.gene_name info) (Some v) (Info.gene_type info))
  else if startswith field "gene_type" then
    v <- quoted_value field ;;
    Ok (Info.mk (Info.gene_name info) (Info.gene_id info) (Some v))
  else Ok info.

Fixpoint extract_fields (fields : list string) (info : Info.t)
  : result Info.t :=
  match fields with
  | [] => Ok info
  | field :: rest =>
      info' <- extract_field info field ;;
      extract_fields rest info'
  end.

Definition extract_gene_info (attr : string) : result Info.t :=
  extract_fields (py_split ";" attr) Info.empty.

(** [d[k] = v]: the value is replaced where the key stands, a new key goes
    last. *)
Fixpoint dict_set {A : Type} (d : dict A) (k : string) (v : A) : dict A :=
  match d with
  | [] => [(k, v)]
  | (k', v') :: rest =>
      if String.eqb k' k then (k, v) :: rest
      else (k', v') :: dict_set rest k v
  end.

(** One turn of the loop that fills [name_to_info]: the row is stored under
    its standardized gene name, then under its standardized gene id. *)
Definition index_row (name_to_info : name_to_info_t) (row : Gene.t)
  : name_to_info_t :=
  let name_to_info :=
    match Gene.gene_name row with
    | Some n =>
        match standardize_gene_name (Some n) with
        | Some k => dict_set name_to_info k row
        | None => name_to_info
        end
    | None => name_to_info
    end in
  match Gene.gene_id row with
  | Some i =>
      match standardize_gene_name (Some i) with
      | Some k => dict_set name_to_info k row
      | None => name_to_info
      end
  | None => name_to_info
  end.

Definition build_name_to_info (gene_annotations : list Gene.t)
  : name_to_info_t :=
  fold_left index_row gene_annotations [].

(** ** Peak distribution summary ([summarize_peak_distribution]) *)

(** [x == y] on float64: numeric equality, false as soon as one side is
    nan. *)
Definition feq (x y : float64) : bool :=
  match x, y with
  | Fin a, Fin b => Qeq_bool a b
  | PInf, PInf => true
  | NInf, NInf => true
  | _, _ => false
  end.

Definition fne (x y : float64) : bool := negb (feq x y).

Module Distribution.
Record t : Type := mk {
  total_genes : nat;
  exo_only : nat;
  endo_only : nat;
  both : nat
}.
End Distribution.

Definition count_rows (f : Rec.t -> bool) (df : list Rec.t) : nat :=
  List.length (filter f df).

Definition summarize_table (df : list Rec.t) : Distribution.t :=
  Distribution.mk
    (List.length df)
    (count_rows (fun r => feq (Rec.enrichment_score r) PInf) df)
    (count_rows (fun r => feq (Rec.enrichment_score r) (Fin 0)) df)
    (count_rows (fun r => fne (Rec.enrichment_score r) PInf
                          && fne (Rec.enrichment_score r) (Fin 0)
                          && negb (isnan (Rec.enrichment_score r))) df).

Definition summarize_peak_distribution (results : dict (list Rec.t))
  : dict Distribution.t :=
  map (fun kv => (fst kv, summarize_table (snd kv))) results.

(** ** Fixtures *)

Module Fixture.

Definition peak (chr : string) (b e : Z) (s q : Q) : Peak.t :=
  Peak.mk chr b e "peak" 100 "." (Fin s) (Fin 5) (Fin q) 50 None.

Definition geneA : Gene.t :=
  Gene.mk "chr1" "gene" 10000 20000 "+" (Some "GeneA") (Some "ENSG01.1").

Definition geneB : Gene.t :=
  Gene.mk "chr1" "gene" 50000 60000 "-" (Some "GeneB") (Some "ENSG02.1").

Definition name_to_info : name_to_info_t :=
  [("GeneA", geneA); ("ENSG01", geneA); ("GeneB", geneB); ("ENSG02", geneB)].

(** NSCv1 and NSCM1 each carry one peak at either promoter; the other four
    samples carry one peak on another chromosome. *)
Definition peak_files (path : string) : peak_file :=
  if String.eqb path "data/peaks/NSCv1_peaks.narrowPeak" then
    FileRows [peak "chr1" 9900 10100 1 (1 # 100);
              peak "chr1" 59900 60100 2 (1 # 100)]
  else if String.eqb path "data/peaks/NSCM1_peaks.narrowPeak" then
    FileRows [peak "chr1" 9950 10050 1 (1 # 100);
              peak "chr1" 59950 60050 1 (1 # 100)]
  else FileRows [peak "chr2" 100 300 1 (1 # 100)].

Definition bam_files (path : string) : bam_file := BamCount 1000000.

Definition dea_two_genes : list Dea.row :=
  [Dea.mk (Some "GeneA") (Fin 2) (Fin (1 # 100));
   Dea.mk (Some "GeneB") (Fin 3) (Fin (1 # 100))].

(** Three rows that standardize to GeneA; the first one is not
    up-regulated. *)
Definition dea_duplicates : list Dea.row :=
  [Dea.mk (Some "GeneA.1") (Fin (1 # 10)) (Fin (9 # 10));
   Dea.mk (Some "GeneA") (Fin 2) (Fin (1 # 100));
   Dea.mk (Some "GeneA.2") (Fin 3) (Fin (1 # 1000))].

Definition world (dea : list Dea.row) : World :=
  mkWorld "data" (Ok dea) peak_files bam_files
          (Ok ([geneA; geneB], name_to_info)).

(** Exogenous files all missing, endogenous files present. *)
Definition world_no_exo : World :=
  mkWorld "data" (Ok dea_two_genes)
          (fun path =>
             if String.prefix "data/peaks/NSCv" path then FileMissing
             else peak_files path)
          bam_files (Ok ([geneA; geneB], name_to_info)).

(** One exogenous file missing, everything else present. *)
Definition world_one_missing : World :=
  mkWorld "data" (Ok dea_two_genes)
          (fun path =>
             if String.eqb path "data/peaks/NSCv3_peaks.narrowPeak"
             then FileMissing else peak_files path)
          bam_files (Ok ([geneA; geneB], name_to_info)).

(** Peaks around the window [8000, 12000] of [geneA]: one starting at the
    window's end, one ending at its start, one wholly before, one wholly
    after, one on another chromosome. *)
Definition at_window_end : Peak.t := peak "chr1" 12000 12100 1 (1 # 100).
Definition at_window_start : Peak.t := peak "chr1" 7900 8000 1 (1 # 100).
Definition before_window : Peak.t := peak "chr1" 7000 7999 1 (1 # 100).
Definition after_window : Peak.t := peak "chr1" 12001 12500 1 (1 # 100).
Definition other_chromosome : Peak.t := peak "chr2" 9000 11000 1 (1 # 100).

Definition boundary_peaks : dict DataFrame :=
  [("NSCv1", Frame [at_window_end; before_window; other_chromosome]);
   ("NSCv2", Frame [after_window; at_window_start])].

(** An exogenous condition with no peak near [geneA], and an endogenous
    one with a single peak there. *)
Definition peaks_far : dict DataFrame :=
  [("NSCv1", Frame [other_chromosome])].

Definition peaks_near : dict DataFrame :=
  [("NSCM1", Frame [peak "chr1" 9950 10050 1 (1 # 100)])].

Definition peaks_exo_near : dict DataFrame :=
  [("NSCv1", Frame [peak "chr1" 9900 10100 1 (1 # 100)])].

(** The record of GeneA that [signal_ratio] yields on [peaks_exo_near]
    and [peaks_near] with the table [dea_duplicates]. *)
Definition record_geneA : Rec.t :=
  Rec.mk "GeneA" (Fin 1) (Fin (1 # 10)) (Fin (9 # 10))
         "chr1:9900-10100" "chr1:9950-10050" 1 1.

(** A table with an inverted interval, a negative signal and two valid
    rows. *)
Definition raw_rows : list Peak.t :=
  [peak "chr1" 100 200 3 (1 # 100);
   peak "chr1" 500 400 2 (1 # 100);
   peak "chr1" 600 700 (-1) (1 # 100);
   peak "chr2" 10 20 0 (1 # 100)].

(** A line whose signalValue, pValue and qValue fields are empty:
    [read_csv] reads them as nan. *)
Definition line_without_signal (chr : string) (b e : Z) : Peak.t :=
  Peak.mk chr b e "peak" 100 "." NaN NaN NaN 50 None.

(** A table with such a line, a full line and an inverted interval, none
    with a negative signal. *)
Definition rows_without_signal : list Peak.t :=
  [peak "chr1" 100 200 3 (1 # 100);
   line_without_signal "chr1" 300 400;
   peak "chr1" 500 400 2 (1 # 100)].


(** A gene whose name carries a leading blank in the annotation and in the
    differential-expression table alike, and the same gene spelled without
    blank and prefix in both. *)
Definition gene_blank : Gene.t :=
  Gene.mk "chr1" "gene" 10000 20000 "+" (Some " gene-A") (Some "ENSG09").

Definition dea_blank : list Dea.row :=
  [Dea.mk (Some " gene-A") (Fin 2) (Fin (1 # 100))].

Definition gene_plain : Gene.t :=
  Gene.mk "chr1" "gene" 10000 20000 "+" (Some "A") (Some "ENSG09").

Definition dea_plain : list Dea.row :=
  [Dea.mk (Some "A") (Fin 2) (Fin (1 # 100))].

(** The annotation file is missing; the peak files are all there. *)
Definition world_no_annotation : World :=
  mkWorld "data" (Ok dea_two_genes) peak_files bam_files
          (Raise (FileNotFoundError "GTF file not found")).

(** The differential-expression table cannot be read. *)
Definition world_no_dea : World :=
  mkWorld "data" (Raise (FileNotFoundError "../DATA/DEA_NSC.csv"))
          peak_files bam_files (Ok ([geneA; geneB], name_to_info)).

(** A condition in which the file of NSCv3 was missing. *)
Definition peaks_with_missing : dict DataFrame :=
  [("NSCv1", Frame [peak "chr1" 9900 10100 1 (1 # 100)]);
   ("NSCv3", EmptyFrame)].

Definition no_files : csv_store := fun _ => None.

(** A table of the statistical method left over from an earlier run. *)
Definition stale_files : csv_store :=
  to_csv "data/enrichment_statistical_NSC.csv" [record_geneA] no_files.

(** Stand-ins for the library functions, used only to run the model. *)
Definition fisher_stub (table : list (list Z)) : result (float64 * float64) :=
  Ok (Fin 1, Fin 1).

Definition fisher_raising (table : list (list Z))
  : result (float64 * float64) :=
  Raise (ValueError "fisher_exact").

Definition log10_stub (q : Q) : Q :=
  inject_Z (Z.log2 (Qnum q) - Z.log2 (Zpos (Qden q))) * (30103 # 100000).

End Fixture.

(** ** Predicates used in the statements *)

Fixpoint has_dot (s : string) : bool :=
  match s with
  | EmptyString => false
  | String c r => Ascii.eqb c "." || has_dot r
  end.

(** [s] starts with none of the three spellings that
    [standardize_gene_name] removes. *)
Definition no_known_prefix (s : string) : Prop :=
  forall p, In p prefixes -> startswith s p = false.

(** The table carries the narrowPeak columns. *)
Definition has_columns (df : DataFrame) : Prop :=
  match df with
  | EmptyFrame => False
  | Frame _ => True
  end.

(** [p], read from sample [sample] of [peaks_dict], meets the overlap test
    of [get_peaks_near_gene] for [gene_info] and [window]. *)
Definition in_promoter (peaks_dict : dict DataFrame) (gene_info : Gene.t)
  (window : Z) (sample : string) (p : Peak.t) : Prop :=
  (exists rows, In (sample, Frame rows) peaks_dict /\ In p rows)
  /\ Peak.chr p = Gene.chr gene_info
  /\ Peak.start p <= snd (promoter_region gene_info window)
  /\ fst (promoter_region gene_info window) <= Peak.end_ p.

(** The rows of the standardized table that pass the up-regulation
    thresholds and standardize to [gene]. *)
Definition qualifying_rows (dea : list (Dea.row * option string))
  (gene : string) : list (Dea.row * option string) :=
  filter (fun r => upregulated r && gene_std_is gene r) dea.

Definition has_gene (gene : string) (r : Rec.t) : bool :=
  String.eqb (Rec.gene r) gene.

(** Scores in non-increasing order: each one is at least its successor. *)
Fixpoint non_increasing (scores : list float64) : bool :=
  match scores with
  | x :: (y :: _) as rest => fge x y && non_increasing rest
  | _ => true
  end.

(** A peak row that [validate_peak_file] keeps. *)
Definition valid_coordinates (p : Peak.t) : bool :=
  Peak.start p <? Peak.end_ p.

Definition negative_signal (p : Peak.t) : bool :=
  flt (Peak.signalValue p) (Fin 0).

(** What [validate_peak_file] does to the rows of a table with columns:
    the inverted intervals go; when a remaining row has a negative signal,
    only the rows with signal >= 0 stay, which drops the nan signals too;
    otherwise nan signals stay. *)
Definition validated_rows (rows : list Peak.t) : list Peak.t :=
  let rows1 := filter valid_coordinates rows in
  if existsb negative_signal rows1
  then filter (fun p => fge (Peak.signalValue p) (Fin 0)) rows1
  else rows1.

(** start < end and a signal that is not negative (it may be nan). *)
Definition valid_peak (p : Peak.t) : Prop :=
  Peak.start p < Peak.end_ p /\ flt (Peak.signalValue p) (Fin 0) = false.

(** The rows of [peaks_dict] that pass the overlap test, tagged with their
    sample: samples in dictionary order, rows in table order. *)
Definition rows_near (gene_info : Gene.t) (region : Z * Z)
  (peaks_dict : dict DataFrame) : list Peak.t :=
  flat_map (fun kv => map (Peak.set_sample (fst kv))
                          (filter (overlaps gene_info region)
                                  (frame_rows (snd kv))))
           peaks_dict.

(** The frame is the column-less one or has at least one row. *)
Definition lookup_shape (df : DataFrame) : Prop :=
  df = EmptyFrame \/ exists p ps, df = Frame (p :: ps).

(** [l1] is [l2] with some items left out. *)
Inductive subseq {A : Type} : list A -> list A -> Prop :=
| subseq_nil : subseq [] []
| subseq_skip : forall x l1 l2, subseq l1 l2 -> subseq l1 (x :: l2)
| subseq_keep : forall x l1 l2, subseq l1 l2 -> subseq (x :: l1) (x :: l2).



Fixpoint contains (c : ascii) (s : string) : bool :=
  match s with
  | EmptyString => false
  | String d r => Ascii.eqb d c || contains c r
  end.

(** The keys under which [index_row] stores a row. *)
Definition row_keys (row : Gene.t) : list string :=
  (match Gene.gene_name row with
   | Some n => match standardize_gene_name (Some n) with
               | Some k => [k]
               | None => []
               end
   | None => []
   end
   ++
   match Gene.gene_id row with
   | Some i => match standardize_gene_name (Some i) with
               | Some k => [k]
               | None => []
               end
   | None => []
   end)%list.

Definition has_key (k : string) (row : Gene.t) : bool :=
  existsb (String.eqb k) (row_keys row).


(** All rows of all tables of a condition. *)
Definition all_rows (peaks_dict : dict DataFrame) : list Peak.t :=
  flat_map (fun kv => frame_rows (snd kv)) peaks_dict.

(** A value between double quotes, and an attribute string in the layout of
    a GENCODE gene line: gene_id, gene_type and gene_name, each followed by
    a semicolon. *)
Definition quoted (v : string) : string :=
  String dquote (v ++ String dquote EmptyString).

Definition gencode_attributes (gene_id gene_type gene_name : string)
  : string :=
  ("gene_id " ++ quoted gene_id)
  ++ String ";" ((" gene_type " ++ quoted gene_type)
  ++ String ";" ((" gene_name " ++ quoted gene_name)
  ++ String ";" EmptyString)).

(** The field, once trimmed, starts with one of the three keys that
    [extract_gene_info] reads. *)
Definition keyed (field : string) : bool :=
  startswith (strip field) "gene_name"
  || startswith (strip field) "gene_id"
  || startswith (strip field) "gene_type".


(** * Properties *)

(** ** Gene-name standardisation *)

Lemma split_dot_head_no_dot (s : string) : has_dot (split_dot_head s) = false.
Proof.
  induction s as [|c r IH]; simpl; [reflexivity|].
  destruct (Ascii.eqb c ".") eqn:E; simpl; [reflexivity|].
  now rewrite E, IH.
Qed.

Lemma split_dot_head_fixed (s : string) :
  has_dot s = false -> split_dot_head s = s.
Proof.
  induction s as [|c r IH]; simpl; [reflexivity|].
  intros H. apply orb_false_iff in H as [Hc Hr].
  now rewrite Hc, IH.
Qed.

Lemma split_dot_head_length (s : string) :
  (String.length (split_dot_head s) <= String.length s)%nat.
Proof.
  induction s as [|c r IH]; simpl; [lia|].
  destruct (Ascii.eqb c "."); simpl; lia.
Qed.

Lemma drop_no_dot (n : nat) (s : string) :
  has_dot s = false -> has_dot (drop n s) = false.
Proof.
  revert s; induction n as [|n IH]; intros s H; [exact H|].
  destruct s as [|c r]; simpl; [reflexivity|].
  simpl in H. apply orb_false_iff in H as [_ Hr]. now apply IH.
Qed.

Lemma drop_length (n : nat) (s : string) :
  String.length (drop n s) = (String.length s - n)%nat.
Proof.
  revert s; induction n as [|n IH]; intros s; simpl; [lia|].
  destruct s as [|c r]; simpl; [reflexivity|apply IH].
Qed.

Lemma prefix_length (p s : string) :
  String.prefix p s = true -> (String.length p <= String.length s)%nat.
Proof.
  revert s; induction p as [|a p IH]; intros s H; simpl; [lia|].
  destruct s as [|b s]; simpl in H; [discriminate|].
  destruct (ascii_dec a b); [|discriminate].
  apply IH in H. simpl. lia.
Qed.

Lemma remove_prefix_no_dot (s p : string) :
  has_dot s = false -> has_dot (remove_prefix s p) = false.
Proof.
  intros H. unfold remove_prefix.
  destruct (startswith s p); [now apply drop_no_dot|exact H].
Qed.

Lemma remove_prefix_length (s p : string) :
  (String.length (remove_prefix s p) <= String.length s)%nat.
Proof.
  unfold remove_prefix. destruct (startswith s p); [|lia].
  rewrite drop_length. lia.
Qed.

Lemma remove_prefix_shorter (s p : string) :
  p <> EmptyString -> startswith s p = true ->
  (String.length (remove_prefix s p) < String.length s)%nat.
Proof.
  intros Hp H. unfold remove_prefix. rewrite H, drop_length.
  apply prefix_length in H.
  destruct p as [|a p]; [congruence|]. simpl in *. lia.
Qed.

Lemma remove_prefixes_no_dot (ps : list string) (s : string) :
  has_dot s = false -> has_dot (fold_left remove_prefix ps s) = false.
Proof.
  revert s; induction ps as [|p ps IH]; intros s H; simpl; [exact H|].
  now apply IH, remove_prefix_no_dot.
Qed.

Lemma remove_prefixes_length (ps : list string) (s : string) :
  (String.length (fold_left remove_prefix ps s) <= String.length s)%nat.
Proof.
  revert s; induction ps as [|p ps IH]; intros s; simpl; [lia|].
  specialize (IH (remove_prefix s p)).
  pose proof (remove_prefix_length s p). lia.
Qed.

Lemma remove_prefixes_fixed (ps : list string) (s : string) :
  (forall p, In p ps -> startswith s p = false) ->
  fold_left remove_prefix ps s = s.
Proof.
  induction ps as [|p ps IH]; intros H; simpl; [reflexivity|].
  unfold remove_prefix at 2. rewrite (H p (or_introl eq_refl)).
  apply IH. intros q Hq. apply H. now right.
Qed.

Lemma remove_prefixes_shorter (ps : list string) (s p : string) :
  Forall (fun q => q <> EmptyString) ps ->
  In p ps -> startswith s p = true ->
  (String.length (fold_left remove_prefix ps s) < String.length s)%nat.
Proof.
  revert s; induction ps as [|q ps IH]; intros s Hne Hin Hp; [easy|].
  simpl. inversion Hne as [|? ? Hq Hne']; subst.
  destruct (startswith s q) eqn:E.
  - pose proof (remove_prefix_shorter s q Hq E).
    pose proof (remove_prefixes_length ps (remove_prefix s q)). lia.
  - destruct Hin as [->|Hin]; [congruence|].
    unfold remove_prefix at 2. rewrite E. now apply IH.
Qed.

Lemma lstrip_no_dot (s : string) :
  has_dot s = false -> has_dot (lstrip s) = false.
Proof.
  induction s as [|c r IH]; simpl; [easy|].
  intros H. destruct (is_space c); [|exact H].
  apply orb_false_iff in H as [_ Hr]. now apply IH.
Qed.

Lemma rstrip_no_dot (s : string) :
  has_dot s = false -> has_dot (rstrip s) = false.
Proof.
  induction s as [|c r IH]; simpl; [easy|].
  intros H. apply orb_false_iff in H as [Hc Hr]. specialize (IH Hr).
  destruct (rstrip r) as [|d r'] eqn:E.
  - destruct (is_space c); simpl; [reflexivity|now rewrite Hc].
  - change (has_dot (String c (String d r')))
      with (Ascii.eqb c "." || has_dot (String d r')).
    now rewrite Hc, IH.
Qed.

Lemma lstrip_length (s : string) :
  (String.length (lstrip s) <= String.length s)%nat.
Proof.
  induction s as [|c r IH]; simpl; [lia|].
  destruct (is_space c); simpl; lia.
Qed.

Lemma rstrip_length (s : string) :
  (String.length (rstrip s) <= String.length s)%nat.
Proof.
  induction s as [|c r IH]; simpl; [lia|].
  destruct (rstrip r); [destruct (is_space c)|]; simpl in *; lia.
Qed.

Lemma rstrip_idempotent (s : string) : rstrip (rstrip s) = rstrip s.
Proof.
  induction s as [|c r IH]; simpl; [reflexivity|].
  destruct (rstrip r) as [|d r'] eqn:E.
  - destruct (is_space c) eqn:Ec; simpl; [reflexivity|now rewrite Ec].
  - change (rstrip (String c (String d r')))
      with (match rstrip (String d r') with
            | EmptyString => if is_space c then EmptyString
                             else String c EmptyString
            | x => String c x
            end).
    now rewrite IH.
Qed.

(** A string that does not start with a space keeps its first character
    under [rstrip]. *)
Lemma lstrip_rstrip_lstrip (s : string) :
  lstrip (rstrip (lstrip s)) = rstrip (lstrip s).
Proof.
  induction s as [|c r IH]; simpl; [reflexivity|].
  destruct (is_space c) eqn:Ec; [exact IH|].
  simpl. destruct (rstrip r); rewrite ?Ec; simpl; now rewrite Ec.
Qed.

Lemma strip_idempotent (s : string) : strip (strip s) = strip s.
Proof.
  unfold strip. now rewrite lstrip_rstrip_lstrip, rstrip_idempotent.
Qed.

Lemma strip_no_dot (s : string) :
  has_dot s = false -> has_dot (strip s) = false.
Proof. intros H. now apply rstrip_no_dot, lstrip_no_dot. Qed.

Lemma strip_length (s : string) :
  (String.length (strip s) <= String.length s)%nat.
Proof.
  unfold strip. pose proof (rstrip_length (lstrip s)).
  pose proof (lstrip_length s). lia.
Qed.

Lemma prefixes_nonempty : Forall (fun q => q <> EmptyString) prefixes.
Proof. repeat constructor; discriminate. Qed.

Lemma standardize_gene_name_Some (s : string) :
  standardize_gene_name (Some s)
  = Some (strip (fold_left remove_prefix prefixes (split_dot_head s))).
Proof. reflexivity. Qed.

(** What [standardize_gene_name] computes, step by step, and the inputs at
    which a second application changes the result: those whose first result
    still starts with one of the three prefixes. *)
Lemma standardize_gene_name_idempotent_iff (x : option string) :
  standardize_gene_name None = None
  /\ (forall s,
        standardize_gene_name (Some s)
        = Some (strip
                  (remove_prefix
                     (remove_prefix
                        (remove_prefix (split_dot_head s) "gene-") "Gene-")
                     "GENE-")))
  /\ (standardize_gene_name (standardize_gene_name x) = standardize_gene_name x
      <-> match standardize_gene_name x with
          | None => True
          | Some y => no_known_prefix y
          end).
Proof.
  split; [reflexivity|]. split; [reflexivity|].
  destruct x as [s|]; [|simpl; tauto].
  rewrite !standardize_gene_name_Some.
  set (z := fold_left remove_prefix prefixes (split_dot_head s)).
  assert (Hz : has_dot (strip z) = false).
  { apply strip_no_dot, remove_prefixes_no_dot, split_dot_head_no_dot. }
  rewrite (split_dot_head_fixed _ Hz).
  split.
  - intros H p Hp.
    destruct (startswith (strip z) p) eqn:E; [|reflexivity].
    exfalso. injection H as H.
    pose proof (remove_prefixes_shorter prefixes (strip z) p
                  prefixes_nonempty Hp E) as Hlt.
    pose proof (strip_length (fold_left remove_prefix prefixes (strip z))).
    apply (f_equal String.length) in H.
    change (remove_prefix
              (remove_prefix (remove_prefix (strip z) "gene-") "Gene-") "GENE-")
      with (fold_left remove_prefix prefixes (strip z)) in H.
    lia.
  - intros H. rewrite (remove_prefixes_fixed prefixes (strip z) H).
    now rewrite strip_idempotent.
Qed.

Lemma standardize_gene_name_idempotent_iff_witness :
  standardize_gene_name (standardize_gene_name (Some "gene-Sox2.1 "))
  = standardize_gene_name (Some "gene-Sox2.1 ").
Proof.
  apply (proj2 (proj2 (standardize_gene_name_idempotent_iff
                         (Some "gene-Sox2.1 ")))).
  intros p Hp. simpl in Hp.
  destruct Hp as [<-|[<-|[<-|[]]]]; reflexivity.
Defined.

(** C4.  [standardize_gene_name] is not idempotent at the name " gene-A":
    it tests the prefixes before it trims, so the first pass only trims and
    gives "gene-A", and a second pass removes the prefix and gives "A".  The
    pipeline makes that second pass.  The annotation index is keyed by names
    standardized once, the gene list of the differential-expression table
    holds names standardized once, and [get_peaks_near_gene] standardizes
    the listed name again before it looks it up.  A gene spelled " gene-A"
    in both tables is never found and gets no record under any method,
    although both conditions have a peak in its promoter window; spelled
    "A" in both tables the same gene is found and scored. *)
Theorem standardize_gene_name_second_pass_loses_gene :
  standardize_gene_name (Some " gene-A") = Some "gene-A"
  /\ standardize_gene_name (standardize_gene_name (Some " gene-A"))
     = Some "A"
  /\ standardize_gene_name (standardize_gene_name (Some " gene-A"))
     <> standardize_gene_name (Some " gene-A")
  /\ map fst (build_name_to_info [Fixture.gene_blank]) = ["gene-A"; "ENSG09"]
  /\ upreg_genes (with_gene_std Fixture.dea_blank) = ["gene-A"]
  /\ get_peaks_near_gene "gene-A" Fixture.peaks_exo_near
       [Fixture.gene_blank] (build_name_to_info [Fixture.gene_blank])
       PROMOTER_WINDOW
     = Ok EmptyFrame
  /\ (forall method_func,
        enrichment_scores (with_gene_std Fixture.dea_blank)
          Fixture.peaks_exo_near Fixture.peaks_near [Fixture.gene_blank]
          (build_name_to_info [Fixture.gene_blank]) method_func
        = [])
  /\ enrichment_scores (with_gene_std Fixture.dea_plain)
       Fixture.peaks_exo_near Fixture.peaks_near [Fixture.gene_plain]
       (build_name_to_info [Fixture.gene_plain]) signal_ratio
     = [Rec.mk "A" (Fin 1) (Fin 2) (Fin (1 # 100))
          "chr1:9900-10100" "chr1:9950-10050" 1 1].
Proof.
  split; [reflexivity|]. split; [reflexivity|].
  split; [vm_compute; discriminate|].
  split; [reflexivity|]. split; [reflexivity|]. split; [reflexivity|].
  split; [intros method_func; reflexivity|].
  vm_compute. reflexivity.
Qed.

(** ** Promoter window and overlap *)

(** C7.  On the + strand the promoter window is
    [max(0, start - window), start + window]; on the - strand it is anchored
    at the end coordinate, [max(0, end - window), end + window]; the window
    size the pipeline passes is 2000. *)
Theorem promoter_region_strand (g : Gene.t) (window : Z) :
  (Gene.strand g = "+" ->
   promoter_region g window
   = (Z.max 0 (Gene.start g - window), Gene.start g + window))
  /\ (Gene.strand g = "-" ->
      promoter_region g window
      = (Z.max 0 (Gene.end_ g - window), Gene.end_ g + window))
  /\ PROMOTER_WINDOW = 2000.
Proof.
  unfold promoter_region. repeat split.
  - intros ->. reflexivity.
  - intros ->. reflexivity.
Qed.

Lemma promoter_region_strand_witness :
  promoter_region Fixture.geneA PROMOTER_WINDOW = (8000, 12000)
  /\ promoter_region Fixture.geneB PROMOTER_WINDOW = (58000, 62000).
Proof.
  split.
  - exact (proj1 (promoter_region_strand Fixture.geneA PROMOTER_WINDOW)
                 eq_refl).
  - exact (proj1 (proj2 (promoter_region_strand Fixture.geneB PROMOTER_WINDOW))
                 eq_refl).
Defined.

Lemma overlaps_spec (g : Gene.t) (region : Z * Z) (p : Peak.t) :
  overlaps g region p = true
  <-> Peak.chr p = Gene.chr g
      /\ Peak.start p <= snd region /\ fst region <= Peak.end_ p.
Proof.
  unfold overlaps. rewrite !andb_true_iff, String.eqb_eq, !Z.leb_le. tauto.
Qed.

(** The sample loop succeeds on tables with columns, and the rows it gathers
    are the tagged rows that pass the overlap test. *)
Lemma collect_overlapping_spec (g : Gene.t) (region : Z * Z)
  (items : dict DataFrame) :
  Forall has_columns (dict_values items) ->
  exists all_peaks,
    collect_overlapping g region items = Ok all_peaks
    /\ Forall (fun l => l <> []) all_peaks
    /\ forall q,
         In q (List.concat all_peaks)
         <-> exists sample rows p,
               In (sample, Frame rows) items /\ In p rows
               /\ overlaps g region p = true
               /\ q = Peak.set_sample sample p.
Proof.
  induction items as [|[sample peaks] rest IH]; intros Hc.
  - exists []. repeat split; [constructor| |]; simpl.
    + intros [].
    + intros (? & ? & ? & [] & _).
  - inversion Hc as [|? ? Hpeaks Hrest]; subst.
    destruct (IH Hrest) as (l & El & Hne & Hl). clear IH.
    destruct peaks as [|rows]; [destruct Hpeaks|].
    cbn [collect_overlapping]. rewrite El. cbn [bind].
    assert (Hrows : forall q,
               In q (map (Peak.set_sample sample)
                         (filter (overlaps g region) rows))
               <-> exists p, In p rows /\ overlaps g region p = true
                             /\ q = Peak.set_sample sample p).
    { intros q. rewrite in_map_iff. split.
      - intros (p & <- & Hp). apply filter_In in Hp. now exists p.
      - intros (p & Hp & Ho & ->). exists p. split; [reflexivity|].
        now apply filter_In. }
    assert (Hall : forall q,
               In q (map (Peak.set_sample sample)
                         (filter (overlaps g region) rows))
               \/ In q (List.concat l)
               <-> exists s rows' p,
                     In (s, Frame rows') ((sample, Frame rows) :: rest)
                     /\ In p rows' /\ overlaps g region p = true
                     /\ q = Peak.set_sample s p).
    { intros q. rewrite Hrows, Hl. split.
      - intros [(p & Hp & Ho & ->)|(s & rows' & p & Hin & Hp & Ho & ->)].
        + exists sample, rows, p. simpl. auto.
        + exists s, rows', p. simpl. auto.
      - intros (s & rows' & p & [Heq|Hin] & Hp & Ho & ->).
        + injection Heq as <- <-. left. now exists p.
        + right. now exists s, rows', p. }
    destruct (filter (overlaps g region) rows) as [|p0 ps] eqn:Ef.
    + exists l. repeat split; [assumption| |].
      * intros Hq. apply Hall. now right.
      * intros Hq. apply Hall in Hq as [[]|Hq]. exact Hq.
    + exists (map (Peak.set_sample sample) (p0 :: ps) :: l).
      repeat split.
      * constructor; [discriminate|assumption].
      * intros Hq. apply Hall. cbn [List.concat] in Hq.
        now apply in_app_or in Hq.
      * intros Hq. apply Hall in Hq. cbn [List.concat].
        now apply in_or_app.
Qed.

(** C8.  For a gene the annotation resolves and sample tables that carry the
    peak columns, the lookup returns a subset, and a row belongs to it
    exactly when it is a peak of some sample on the gene's chromosome with
    start <= promoter end and end >= promoter start (both bounds
    inclusive), tagged with that sample. *)
Theorem get_peaks_near_gene_overlap (gene : string)
  (peaks_dict : dict DataFrame) (gene_annotations : list Gene.t)
  (name_to_info : name_to_info_t) (window : Z)
  (gene_std : string) (gene_info : Gene.t) :
  standardize_gene_name (Some gene) = Some gene_std ->
  dict_get name_to_info gene_std = Some gene_info ->
  Forall has_columns (dict_values peaks_dict) ->
  exists subset,
    get_peaks_near_gene gene peaks_dict gene_annotations name_to_info window
    = Ok subset
    /\ forall q,
         In q (frame_rows subset)
         <-> exists sample p,
               in_promoter peaks_dict gene_info window sample p
               /\ q = Peak.set_sample sample p.
Proof.
  intros Hstd Hget Hcols. unfold get_peaks_near_gene.
  rewrite Hstd, Hget.
  destruct (collect_overlapping_spec gene_info
              (promoter_region gene_info window) peaks_dict Hcols)
    as (l & El & _ & Hl).
  rewrite El. cbn [bind].
  assert (H : forall q,
             In q (List.concat l)
             <-> exists sample p,
                   in_promoter peaks_dict gene_info window sample p
                   /\ q = Peak.set_sample sample p).
  { intros q. rewrite Hl. unfold in_promoter. split.
    - intros (s & rows & p & Hin & Hp & Ho & ->).
      apply overlaps_spec in Ho. exists s, p. split; [|reflexivity].
      split; [now exists rows|exact Ho].
    - intros (s & p & ((rows & Hin & Hp) & Ho) & ->).
      exists s, rows, p. repeat split; try assumption.
      now apply overlaps_spec. }
  destruct l as [|l0 l']; eexists; (split; [reflexivity|exact H]).
Qed.

Lemma get_peaks_near_gene_overlap_witness :
  exists subset,
    get_peaks_near_gene "GeneA" Fixture.boundary_peaks
      [Fixture.geneA; Fixture.geneB] Fixture.name_to_info PROMOTER_WINDOW
    = Ok subset
    /\ In (Peak.set_sample "NSCv1" Fixture.at_window_end) (frame_rows subset)
    /\ In (Peak.set_sample "NSCv2" Fixture.at_window_start)
          (frame_rows subset)
    /\ ~ In (Peak.set_sample "NSCv1" Fixture.before_window)
            (frame_rows subset)
    /\ ~ In (Peak.set_sample "NSCv2" Fixture.after_window)
            (frame_rows subset).
Proof.
  destruct (get_peaks_near_gene_overlap "GeneA" Fixture.boundary_peaks
              [Fixture.geneA; Fixture.geneB] Fixture.name_to_info
              PROMOTER_WINDOW "GeneA" Fixture.geneA eq_refl eq_refl)
    as (subset & E & H).
  { repeat constructor. }
  exists subset. split; [exact E|].
  repeat split.
  - apply H. exists "NSCv1", Fixture.at_window_end.
    split; [|reflexivity]. split.
    + eexists. split; [left; reflexivity|]. left. reflexivity.
    + repeat split; vm_compute; discriminate.
  - apply H. exists "NSCv2", Fixture.at_window_start.
    split; [|reflexivity]. split.
    + eexists. split; [right; left; reflexivity|]. right. left. reflexivity.
    + repeat split; vm_compute; discriminate.
  - intros Hq. apply H in Hq as (s & p & (_ & _ & _ & He) & Heq).
    apply (f_equal Peak.end_) in Heq. simpl in Heq, He. lia.
  - intros Hq. apply H in Hq as (s & p & (_ & _ & Hs & _) & Heq).
    apply (f_equal Peak.start) in Heq. simpl in Heq, Hs. lia.
Defined.

(** ** Scoring methods *)

Lemma nonempty_true (df : DataFrame) :
  nonempty df = true <-> (0 < df_len df)%nat.
Proof. unfold nonempty. apply Nat.ltb_lt. Qed.

Lemma nonempty_false (df : DataFrame) :
  nonempty df = false <-> df_len df = 0%nat.
Proof. unfold nonempty. rewrite Nat.ltb_ge. lia. Qed.

Lemma nonempty_has_columns (df : DataFrame) :
  nonempty df = true -> df = Frame (frame_rows df).
Proof. destruct df; [discriminate|reflexivity]. Qed.

(** C6.  [signal_ratio] is mean(exo signal) / mean(endo signal) when both
    subsets are non-empty, +inf when only the exogenous one is, and 0.0
    whenever the exogenous subset is empty. *)
Theorem signal_ratio_cases (exo endo : DataFrame) :
  ((0 < df_len exo)%nat -> (0 < df_len endo)%nat ->
   signal_ratio exo endo
   = Ok (fdiv (np_mean (map signal (frame_rows exo)))
              (np_mean (map signal (frame_rows endo)))))
  /\ ((0 < df_len exo)%nat -> df_len endo = 0%nat ->
      signal_ratio exo endo = Ok PInf)
  /\ (df_len exo = 0%nat -> signal_ratio exo endo = Ok (Fin 0)).
Proof.
  unfold signal_ratio. repeat split.
  - intros Hx He. apply nonempty_true in Hx, He. rewrite Hx, He.
    rewrite (nonempty_has_columns exo Hx), (nonempty_has_columns endo He).
    reflexivity.
  - intros Hx He. apply nonempty_true in Hx. apply nonempty_false in He.
    now rewrite Hx, He.
  - intros Hx. apply nonempty_false in Hx. now rewrite Hx.
Qed.

Lemma signal_ratio_cases_witness :
  signal_ratio (Frame [Fixture.peak "chr1" 100 200 3 (1 # 100);
                       Fixture.peak "chr1" 300 400 5 (1 # 100)])
               (Frame [Fixture.peak "chr1" 100 200 2 (1 # 100)])
  = Ok (Fin 2)
  /\ signal_ratio (Frame [Fixture.peak "chr1" 100 200 3 (1 # 100)]) EmptyFrame
     = Ok PInf
  /\ signal_ratio EmptyFrame (Frame [Fixture.peak "chr1" 100 200 2 (1 # 100)])
     = Ok (Fin 0)
  /\ signal_ratio EmptyFrame EmptyFrame = Ok (Fin 0).
Proof.
  split; [|split; [|split]].
  - apply (proj1 (signal_ratio_cases
                    (Frame [Fixture.peak "chr1" 100 200 3 (1 # 100);
                            Fixture.peak "chr1" 300 400 5 (1 # 100)])
                    (Frame [Fixture.peak "chr1" 100 200 2 (1 # 100)])));
      unfold df_len; simpl; lia.
  - apply (proj1 (proj2 (signal_ratio_cases
                    (Frame [Fixture.peak "chr1" 100 200 3 (1 # 100)])
                    EmptyFrame))); unfold df_len; simpl; lia.
  - apply (proj2 (proj2 (signal_ratio_cases EmptyFrame
                    (Frame [Fixture.peak "chr1" 100 200 2 (1 # 100)]))));
      reflexivity.
  - apply (proj2 (proj2 (signal_ratio_cases EmptyFrame EmptyFrame)));
      reflexivity.
Defined.

(** C2 (the code departs from it).  On the column-less frame that
    [get_peaks_near_gene] returns for "no peak", [peak_count] raises
    [KeyError] in both boundary cases instead of returning 0 or the number
    of exogenous loci; in the gene loop the exception is caught and the gene
    gets no [peak_count] record, while [signal_ratio] scores it 0. *)
Theorem peak_count_raises_on_empty_subset (df : DataFrame) (p : Peak.t)
  (rows : list Peak.t) :
  peak_count EmptyFrame df = Raise (KeyError "chr")
  /\ peak_count (Frame (p :: rows)) EmptyFrame = Raise (KeyError "chr")
  /\ get_peaks_near_gene "GeneA" Fixture.peaks_far
       [Fixture.geneA; Fixture.geneB] Fixture.name_to_info PROMOTER_WINDOW
     = Ok EmptyFrame
  /\ process_gene (with_gene_std Fixture.dea_two_genes)
       Fixture.peaks_far Fixture.peaks_near
       [Fixture.geneA; Fixture.geneB] Fixture.name_to_info
       peak_count "GeneA" = []
  /\ map Rec.enrichment_score
       (process_gene (with_gene_std Fixture.dea_two_genes)
          Fixture.peaks_far Fixture.peaks_near
          [Fixture.geneA; Fixture.geneB] Fixture.name_to_info
          signal_ratio "GeneA") = [Fin 0].
Proof. repeat split. Qed.

(** C3 (the code departs from it).  [statistical] returns nan when both
    subsets are empty, but when exactly one subset is the column-less empty
    frame it raises [KeyError] before [fisher_exact] is reached, whatever
    [fisher_exact] computes; the gene loop then drops the gene. *)
Theorem statistical_raises_on_one_empty_subset
  (fisher_exact : list (list Z) -> result (float64 * float64))
  (total_genome_peaks : Z) (p : Peak.t) (rows : list Peak.t) :
  statistical fisher_exact total_genome_peaks EmptyFrame EmptyFrame = Ok NaN
  /\ statistical fisher_exact total_genome_peaks
       EmptyFrame (Frame (p :: rows)) = Raise (KeyError "chr")
  /\ statistical fisher_exact total_genome_peaks
       (Frame (p :: rows)) EmptyFrame = Raise (KeyError "chr")
  /\ process_gene (with_gene_std Fixture.dea_two_genes)
       Fixture.peaks_far Fixture.peaks_near
       [Fixture.geneA; Fixture.geneB] Fixture.name_to_info
       (statistical fisher_exact total_genome_peaks) "GeneA" = [].
Proof. repeat split. Qed.

(** ** The q-value weight of [area_integration] *)

Lemma Qlt_b_false (a b : Q) : Qlt_b a b = false -> Qle_b b a = true.
Proof.
  unfold Qlt_b, Qle_b. rewrite Z.ltb_ge, Z.leb_le. trivial.
Qed.




















(** ** The loading check *)

(** C5 (as amended).  A missing or unreadable peak file loads as the empty
    table.  With the differential-expression table read, [load_data] raises
    the fatal ValueError as soon as one condition has only empty tables (so
    also when both do); when each condition has a non-empty table and the
    annotation loads, it returns the tables, empty ones included. *)
Theorem load_data_insufficient (w : World) (dea : list Dea.row) :
  dea_csv w = Ok dea ->
  load_peak_file FileMissing = EmptyFrame
  /\ load_peak_file ReadError = EmptyFrame
  /\ (forallb df_empty (dict_values (map (load_sample w) exo_samples)) = true
      \/ forallb df_empty (dict_values (map (load_sample w) endo_samples))
         = true ->
      load_data w = Raise (ValueError "Insufficient peak data for analysis"))
  /\ (forall ann,
        forallb df_empty (dict_values (map (load_sample w) exo_samples))
        = false ->
        forallb df_empty (dict_values (map (load_sample w) endo_samples))
        = false ->
        load_gene_annotations w = Ok ann ->
        load_data w
        = Ok (dea, map (load_sample w) exo_samples,
              map (load_sample w) endo_samples, fst ann, snd ann)).
Proof.
  intros Hdea. split; [reflexivity|]. split; [reflexivity|].
  unfold load_data. rewrite Hdea. cbn [bind]. split.
  - intros [H|H]; rewrite H; [reflexivity|now rewrite orb_true_r].
  - intros ann Hx He Hann. now rewrite Hx, He, Hann.
Qed.

Lemma load_data_insufficient_witness :
  load_data Fixture.world_no_exo
  = Raise (ValueError "Insufficient peak data for analysis")
  /\ exists loaded, load_data Fixture.world_one_missing = Ok loaded
                    /\ dict_get (snd (fst (fst (fst loaded)))) "NSCv3"
                       = Some EmptyFrame.
Proof.
  split.
  - apply (proj1 (proj2 (proj2 (load_data_insufficient Fixture.world_no_exo
                                  Fixture.dea_two_genes eq_refl)))).
    left. reflexivity.
  - eexists. split.
    + apply (proj2 (proj2 (proj2 (load_data_insufficient
                                    Fixture.world_one_missing
                                    Fixture.dea_two_genes eq_refl)))
               ([Fixture.geneA; Fixture.geneB], Fixture.name_to_info));
        reflexivity.
    + reflexivity.
Defined.

(** C5 as stated fails: with every exogenous file missing and the
    endogenous tables all non-empty, loading still aborts. *)
Lemma load_data_aborts_with_one_condition_empty :
  forallb df_empty
    (dict_values (map (load_sample Fixture.world_no_exo) exo_samples)) = true
  /\ existsb df_empty
       (dict_values (map (load_sample Fixture.world_no_exo) endo_samples))
     = false
  /\ load_data Fixture.world_no_exo
     = Raise (ValueError "Insufficient peak data for analysis").
Proof. repeat split. Qed.

(** ** Duplicate rows of the differential-expression table *)

Lemma upreg_genes_cons (r : Dea.row * option string)
  (dea : list (Dea.row * option string)) :
  upreg_genes (r :: dea)
  = ((if upregulated r
      then match snd r with Some g => [g] | None => [] end
      else []) ++ upreg_genes dea)%list.
Proof.
  unfold upreg_genes. simpl. now destruct (upregulated r).
Qed.

(** An up-regulated gene is listed once per qualifying row. *)
Lemma upreg_genes_count (dea : list (Dea.row * option string)) (g : string) :
  count_occ string_dec (upreg_genes dea) g
  = List.length (qualifying_rows dea g).
Proof.
  unfold qualifying_rows.
  induction dea as [|r dea IH]; [reflexivity|].
  rewrite upreg_genes_cons, count_occ_app, IH. simpl.
  destruct (upregulated r) eqn:Eu; [|reflexivity].
  unfold gene_std_is, upregulated in *.
  destruct (snd r) as [g'|]; [|now rewrite andb_false_r in Eu].
  simpl. destruct (string_dec g' g) as [->|Hne].
  - now rewrite String.eqb_refl.
  - apply String.eqb_neq in Hne. now rewrite Hne.
Qed.

Lemma iloc0_filter_find {A : Type} (P : A -> bool) (l : list A) (x : A) :
  iloc0 (filter P l) = Ok x -> find P l = Some x.
Proof.
  induction l as [|a l IH]; simpl; [discriminate|].
  destruct (P a); simpl; [now intros [= ->]|exact IH].
Qed.

Section GeneLoop.

Variable dea : list (Dea.row * option string).
Variables peaks_exo peaks_endo : dict DataFrame.
Variable gene_annotations : list Gene.t.
Variable name_to_info : name_to_info_t.
Variable method_func : method_t.

Local Abbreviation run :=
  (process_gene dea peaks_exo peaks_endo gene_annotations name_to_info
     method_func).

(** A record carries the gene it was scored for and the figures of the
    first row of the table with that standardized name. *)
Lemma process_gene_record (gene : string) (r : Rec.t) :
  In r (run gene) ->
  Rec.gene r = gene
  /\ exists row,
       find (gene_std_is gene) dea = Some row
       /\ Rec.log2FoldChange r = Dea.log2FoldChange (fst row)
       /\ Rec.padj r = Dea.padj (fst row).
Proof.
  unfold process_gene, score_gene.
  destruct (get_peaks_near_gene gene peaks_exo _ _ _) as [exo|];
    [|intros []].
  destruct (get_peaks_near_gene gene peaks_endo _ _ _) as [endo|];
    [|intros []].
  cbn [bind].
  destruct (negb (df_empty exo) || negb (df_empty endo)); [|intros []].
  destruct (method_func exo endo) as [score|]; [|intros []].
  cbn [bind].
  destruct (iloc0 (filter (gene_std_is gene) dea)) as [row|] eqn:Erow;
    [|intros []].
  cbn [bind]. destruct (negb (isnan score)); [|intros []].
  intros [<-|[]]. split; [reflexivity|].
  exists row. split; [now apply iloc0_filter_find|]. now split.
Qed.

Lemma filter_has_gene_same (gene : string) :
  filter (has_gene gene) (run gene) = run gene.
Proof.
  apply forallb_filter_id. apply forallb_forall. intros r Hr.
  apply process_gene_record in Hr as [Hg _].
  unfold has_gene. rewrite Hg. apply String.eqb_refl.
Qed.

Lemma filter_has_gene_other (gene other : string) :
  other <> gene -> filter (has_gene gene) (run other) = [].
Proof.
  intros Hne.
  assert (H : forall l, (forall r, In r l -> Rec.gene r = other) ->
                        filter (has_gene gene) l = []).
  { induction l as [|r l IH]; intros Hl; [reflexivity|]. simpl.
    unfold has_gene at 1. rewrite (Hl r (or_introl eq_refl)).
    apply String.eqb_neq in Hne. rewrite Hne.
    apply IH. intros r' Hr'. apply Hl. now right. }
  apply H. intros r Hr. now apply process_gene_record in Hr.
Qed.

(** The records of one gene in a method's table: one copy of the gene's
    outcome per occurrence in the gene list. *)
Lemma records_of_gene (genes : list string) (gene : string) :
  filter (has_gene gene) (flat_map run genes)
  = List.concat (repeat (run gene) (count_occ string_dec genes gene)).
Proof.
  induction genes as [|g genes IH]; [reflexivity|].
  cbn [flat_map]. rewrite filter_app, IH. cbn [count_occ].
  destruct (string_dec g gene) as [->|Hne].
  - now rewrite filter_has_gene_same.
  - now rewrite (filter_has_gene_other gene g Hne).
Qed.

End GeneLoop.

(** C10.  A standardized gene name is put on the gene list once per row
    that passes the thresholds, so a method's table holds the gene's record
    once per such row; every record takes log2FoldChange and padj from the
    first row of the whole table with that standardized name, and that row
    can be one that fails the thresholds (as in the fixture, where both
    records of GeneA carry the figures of a row with log2FoldChange 0.1). *)
Theorem duplicate_rows_scored_per_row (dea0 : list Dea.row)
  (peaks_exo peaks_endo : dict DataFrame) (gene_annotations : list Gene.t)
  (name_to_info : name_to_info_t) (method_func : method_t) (gene : string) :
  count_occ string_dec (upreg_genes (with_gene_std dea0)) gene
  = List.length (qualifying_rows (with_gene_std dea0) gene)
  /\ filter (has_gene gene)
       (enrichment_scores (with_gene_std dea0) peaks_exo peaks_endo
          gene_annotations name_to_info method_func)
     = List.concat
         (repeat
            (process_gene (with_gene_std dea0) peaks_exo peaks_endo
               gene_annotations name_to_info method_func gene)
            (List.length (qualifying_rows (with_gene_std dea0) gene)))
  /\ (forall r,
        In r (enrichment_scores (with_gene_std dea0) peaks_exo peaks_endo
                gene_annotations name_to_info method_func) ->
        exists row,
          find (gene_std_is (Rec.gene r)) (with_gene_std dea0) = Some row
          /\ Rec.log2FoldChange r = Dea.log2FoldChange (fst row)
          /\ Rec.padj r = Dea.padj (fst row))
  /\ (exists row r,
        find (gene_std_is "GeneA") (with_gene_std Fixture.dea_duplicates)
        = Some row
        /\ upregulated row = false
        /\ enrichment_scores (with_gene_std Fixture.dea_duplicates)
             Fixture.peaks_exo_near Fixture.peaks_near
             [Fixture.geneA; Fixture.geneB] Fixture.name_to_info signal_ratio
           = [r; r]
        /\ Rec.gene r = "GeneA"
        /\ Rec.log2FoldChange r = Dea.log2FoldChange (fst row)
        /\ Rec.padj r = Dea.padj (fst row)).
Proof.
  split; [apply upreg_genes_count|]. split; [|split].
  - unfold enrichment_scores.
    now rewrite records_of_gene, upreg_genes_count.
  - unfold enrichment_scores. intros r Hr.
    apply in_flat_map in Hr as (g & _ & Hr).
    apply process_gene_record in Hr as [-> Hrow]. exact Hrow.
  - eexists. eexists. split; [reflexivity|]. split; [reflexivity|].
    split; [reflexivity|]. repeat split.
Qed.

Lemma duplicate_rows_scored_per_row_witness :
  exists row,
    find (gene_std_is "GeneA") (with_gene_std Fixture.dea_duplicates)
    = Some row
    /\ Rec.log2FoldChange Fixture.record_geneA
       = Dea.log2FoldChange (fst row)
    /\ Rec.padj Fixture.record_geneA = Dea.padj (fst row).
Proof.
  apply (proj1 (proj2 (proj2 (duplicate_rows_scored_per_row
                                Fixture.dea_duplicates
                                Fixture.peaks_exo_near Fixture.peaks_near
                                [Fixture.geneA; Fixture.geneB]
                                Fixture.name_to_info signal_ratio "GeneA")))
           Fixture.record_geneA).
  left. reflexivity.
Defined.

(** ** The per-method CSV files *)

Lemma append_cancel_l (s a b : string) : s ++ a = s ++ b -> a = b.
Proof.
  induction s as [|c s IH]; simpl; [trivial|].
  intros H. injection H as H. now apply IH.
Qed.

Lemma append_length (a b : string) :
  String.length (a ++ b) = (String.length a + String.length b)%nat.
Proof.
  induction a as [|c a IH]; simpl; [reflexivity|]. now rewrite IH.
Qed.

Lemma append_cancel_r (a b t : string) : a ++ t = b ++ t -> a = b.
Proof.
  intros H.
  assert (Hlen : String.length a = String.length b).
  { apply (f_equal String.length) in H. rewrite !append_length in H. lia. }
  revert b H Hlen. induction a as [|c a IH]; intros [|d b] H Hlen;
    simpl in *; try discriminate; [reflexivity|].
  injection H as -> H. f_equal. apply IH; [exact H|lia].
Qed.

Lemma csv_path_injective (data_dir m1 m2 : string) :
  csv_path data_dir m1 = csv_path data_dir m2 -> m1 = m2.
Proof.
  unfold csv_path. intros H.
  apply append_cancel_l, append_cancel_l in H.
  now apply append_cancel_r in H.
Qed.

Section Writes.

Variable data_dir : string.

(** Writing tables leaves the files of other methods alone. *)
Lemma fold_write_plain_other (l : dict (list Rec.t)) (fs : csv_store)
(m : string) :
~ In m (map fst l) ->
fold_left (write_plain data_dir) l fs (csv_path data_dir m)
= fs (csv_path data_dir m).
Proof.
revert fs. induction l as [|[k v] l IH]; intros fs Hm; [reflexivity|].
cbn [fold_left]. rewrite IH by (intros Hin; apply Hm; now right).
unfold write_plain, to_csv. cbn [fst snd].
destruct (String.eqb_spec (csv_path data_dir m) (csv_path data_dir k))
  as [E|E]; [|reflexivity].
apply csv_path_injective in E. subst k. exfalso. apply Hm. now left.
Qed.

(** After the plain writes, the file of every method holds that method's
  table as it stands in [results], whatever the file held before. *)
Lemma fold_write_plain_in (l : dict (list Rec.t)) (fs : csv_store)
(m : string) (df : list Rec.t) :
NoDup (map fst l) -> In (m, df) l ->
fold_left (write_plain data_dir) l fs (csv_path data_dir m) = Some df.
Proof.
revert fs. induction l as [|[k v] l IH]; intros fs Hnd Hin; [easy|].
cbn [map fst] in Hnd. inversion Hnd as [|? ? Hk Hnd']; subst.
cbn [fold_left]. destruct Hin as [[= -> ->]|Hin].
- rewrite fold_write_plain_other by exact Hk.
  unfold write_plain, to_csv. cbn [fst snd]. now rewrite String.eqb_refl.
- now apply IH.
Qed.

End Writes.

Lemma NoDup_keys_filter {A : Type} (P : string * A -> bool) (l : dict A) :
  NoDup (map fst l) -> NoDup (map fst (filter P l)).
Proof.
  induction l as [|kv l IH]; intros H; [constructor|].
  cbn [map] in H. inversion H as [|? ? Hk Hl]; subst. simpl.
  destruct (P kv); [|now apply IH].
  cbn [map]. constructor; [|now apply IH].
  intros Hin. apply Hk. apply in_map_iff in Hin as (x & <- & Hx).
  apply filter_In in Hx as [Hx _]. now apply in_map.
Qed.

Lemma method_names_NoDup
  (fisher_exact : list (list Z) -> result (float64 * float64))
  (log10 : Q -> Q) (total : Z) :
  NoDup (map fst (define_enrichment_methods fisher_exact log10 total)).
Proof.
  cbn [define_enrichment_methods map fst].
  repeat (constructor; [simpl; intuition discriminate|]). constructor.
Qed.

Lemma analyze_enrichment_keys
  (fisher_exact : list (list Z) -> result (float64 * float64))
  (log10 : Q -> Q) (sort_values : list Rec.t -> list Rec.t)
  (data_dir : string) (dea : list Dea.row) (exo endo : dict DataFrame)
  (ann : list Gene.t) (n2i : name_to_info_t) (fs : csv_store) :
  NoDup (map fst (fst (analyze_enrichment fisher_exact log10 sort_values
                         data_dir dea exo endo ann n2i fs))).
Proof.
  unfold analyze_enrichment. cbn [fst].
  apply NoDup_keys_filter. rewrite map_map. cbn [fst].
  apply method_names_NoDup.
Qed.

(** Whatever [sort_values] does, the file the script leaves for a method is
    the method's table in processing order: the plain writes at the end of
    the script replace the sorted ones. *)
Lemma main_overwrites_sorted_csv
  (fisher_exact : list (list Z) -> result (float64 * float64))
  (log10 : Q -> Q) (sort_values : list Rec.t -> list Rec.t)
  (w : World) (fs0 fs : csv_store) (results : dict (list Rec.t))
  (m : string) (df : list Rec.t) :
  main fisher_exact log10 sort_values w fs0 = Ok (results, fs) ->
  In (m, df) results ->
  fs (csv_path (DATA_DIR w) m) = Some df.
Proof.
  unfold main.
  destruct (load_data w) as [[[[[dea exo] endo] ann] n2i]|]; [|discriminate].
  cbn [bind].
  destruct (plot_peak_width_distributions exo endo); [|discriminate].
  cbn [bind].
  pose proof (analyze_enrichment_keys fisher_exact log10 sort_values
                (DATA_DIR w) dea exo endo ann n2i fs0) as Hkeys.
  destruct (analyze_enrichment fisher_exact log10 sort_values
              (DATA_DIR w) dea exo endo ann n2i fs0) as [results' fs1].
  cbn [fst] in Hkeys. intros H Hin.
  assert (Hr : results' = results) by congruence.
  assert (Hf : fold_left (write_plain (DATA_DIR w)) results' fs1 = fs)
    by congruence.
  subst results' fs. now apply fold_write_plain_in.
Qed.

Lemma keep_results_cons (k : string) (r : Rec.t) (rs : list Rec.t)
  (rest : dict (list Rec.t)) :
  keep_results ((k, r :: rs) :: rest) = (k, r :: rs) :: keep_results rest.
Proof. reflexivity. Qed.

(** Loading the two-gene fixture succeeds, the width plots read their
    columns, and [signal_ratio] scores GeneA 1 and then GeneB 2. *)
Lemma fixture_two_genes_loaded :
  exists exo endo a b,
    load_data (Fixture.world Fixture.dea_two_genes)
    = Ok (Fixture.dea_two_genes, exo, endo,
          [Fixture.geneA; Fixture.geneB], Fixture.name_to_info)
    /\ plot_peak_width_distributions exo endo = Ok tt
    /\ enrichment_scores (with_gene_std Fixture.dea_two_genes) exo endo
         [Fixture.geneA; Fixture.geneB] Fixture.name_to_info signal_ratio
       = [a; b]
    /\ map Rec.gene [a; b] = ["GeneA"; "GeneB"]
    /\ map Rec.enrichment_score [a; b] = [Fin 1; Fin 2].
Proof.
  do 4 eexists. split; [vm_compute; reflexivity|].
  split; [vm_compute; reflexivity|].
  split; [vm_compute; reflexivity|]. split; reflexivity.
Qed.

(** C1 (the code departs from it).  Two up-regulated genes whose
    [signal_ratio] scores are 1 and 2, in that processing order: whatever
    [sort_values], [fisher_exact] and [log10] compute, the script ends with
    enrichment_signal_ratio_NSC.csv holding GeneA (score 1) before GeneB
    (score 2), which is not non-increasing. *)
Theorem final_csv_keeps_processing_order
  (fisher_exact : list (list Z) -> result (float64 * float64))
  (log10 : Q -> Q) (sort_values : list Rec.t -> list Rec.t) :
  exists results fs recs,
    main fisher_exact log10 sort_values
      (Fixture.world Fixture.dea_two_genes) Fixture.no_files
    = Ok (results, fs)
    /\ fs "data/enrichment_signal_ratio_NSC.csv" = Some recs
    /\ map Rec.gene recs = ["GeneA"; "GeneB"]
    /\ map Rec.enrichment_score recs = [Fin 1; Fin 2]
    /\ non_increasing (map Rec.enrichment_score recs) = false.
Proof.
  destruct fixture_two_genes_loaded
    as (exo & endo & a & b & Hl & Hp & Hs & Hg & Hsc).
  assert (Hmain : exists results fs,
             main fisher_exact log10 sort_values
               (Fixture.world Fixture.dea_two_genes) Fixture.no_files
             = Ok (results, fs)
             /\ In ("signal_ratio", [a; b]) results).
  { unfold main. rewrite Hl. cbn [bind]. rewrite Hp. cbn [bind].
    destruct (analyze_enrichment _ _ _ _ _ _ _ _ _ _)
      as [results fs1] eqn:Ea.
    exists results, (fold_left
                       (write_plain
                          (DATA_DIR (Fixture.world Fixture.dea_two_genes)))
                       results fs1).
    split; [reflexivity|].
    apply (f_equal fst) in Ea. cbn [fst] in Ea. rewrite <- Ea.
    unfold analyze_enrichment. cbn [fst].
    unfold define_enrichment_methods. cbn [map fst snd].
    rewrite Hs, keep_results_cons. left. reflexivity. }
  destruct Hmain as (results & fs & E & Hin).
  exists results, fs, [a; b]. split; [exact E|].
  split; [|split; [exact Hg|split; [exact Hsc|now rewrite Hsc]]].
  exact (main_overwrites_sorted_csv fisher_exact log10 sort_values
           (Fixture.world Fixture.dea_two_genes) Fixture.no_files fs results
           "signal_ratio" [a; b] E Hin).
Qed.

(** * Further properties of the code *)

(** ** Standardized names *)

Lemma split_dot_head_append (s t : string) :
  has_dot s = false -> split_dot_head (s ++ String "." t) = s.
Proof.
  induction s as [|c r IH]; simpl; [reflexivity|].
  intros H. apply orb_false_iff in H as [Hc Hr]. now rewrite Hc, IH.
Qed.

(** X1.  A standardized name has no dot and no whitespace at either end,
    and is never longer than the name it comes from. *)
Theorem standardize_gene_name_normal_form (s : string) :
  exists y,
    standardize_gene_name (Some s) = Some y
    /\ has_dot y = false
    /\ lstrip y = y /\ rstrip y = y
    /\ (String.length y <= String.length s)%nat.
Proof.
  eexists. split; [apply standardize_gene_name_Some|].
  set (z := fold_left remove_prefix prefixes (split_dot_head s)).
  split; [|split; [|split]].
  - apply strip_no_dot, remove_prefixes_no_dot, split_dot_head_no_dot.
  - apply lstrip_rstrip_lstrip.
  - apply rstrip_idempotent.
  - pose proof (strip_length z).
    pose proof (remove_prefixes_length prefixes (split_dot_head s)).
    pose proof (split_dot_head_length s). subst z. lia.
Qed.

(** X2.  Whatever follows the first dot is ignored: a name and the same
    name with a version suffix standardize alike. *)
Theorem standardize_gene_name_version (s t : string) :
  has_dot s = false ->
  standardize_gene_name (Some (s ++ "." ++ t))
  = standardize_gene_name (Some s).
Proof.
  intros H. rewrite !standardize_gene_name_Some.
  change (s ++ "." ++ t)%string with (s ++ String "." t)%string.
  now rewrite (split_dot_head_append s t H), (split_dot_head_fixed s H).
Qed.

Lemma standardize_gene_name_version_witness :
  standardize_gene_name (Some ("ENSMUSG00000051951" ++ "." ++ "5"))
  = standardize_gene_name (Some "ENSMUSG00000051951").
Proof.
  apply (standardize_gene_name_version "ENSMUSG00000051951" "5").
  reflexivity.
Defined.

(** ** Validation and normalisation of peak tables *)

Lemma filter_all {A : Type} (f : A -> bool) (l : list A) :
  (forall x, In x l -> f x = true) -> filter f l = l.
Proof.
  induction l as [|a l IH]; intros H; [reflexivity|]. simpl.
  rewrite (H a (or_introl eq_refl)). f_equal. apply IH.
  intros x Hx. apply H. now right.
Qed.

(** The guarded coordinate filter of [validate_peak_file] amounts to the
    plain filter; the guarded signal filter does not, since a nan signal
    passes the guard and fails the filter. *)
Lemma validate_peak_file_rows (rows : list Peak.t) :
  validate_peak_file (Frame rows) = Frame (validated_rows rows).
Proof.
  unfold validate_peak_file, validated_rows, df_empty. cbn [frame_rows].
  destruct rows as [|p0 rows0]; [reflexivity|].
  set (rows := p0 :: rows0). f_equal.
  assert (H1 : (if existsb (fun p => Peak.end_ p <=? Peak.start p) rows
                then filter (fun p => Peak.start p <? Peak.end_ p) rows
                else rows)
               = filter valid_coordinates rows).
  { destruct (existsb _ rows) eqn:E; [reflexivity|].
    symmetry. apply filter_all. intros x Hx.
    assert (Hf : (Peak.end_ x <=? Peak.start x) = false).
    { destruct (Peak.end_ x <=? Peak.start x) eqn:Ex; [|reflexivity].
      rewrite <- E. symmetry. apply existsb_exists. now exists x. }
    apply Z.leb_gt in Hf. now apply Z.ltb_lt. }
  cbn zeta. rewrite H1. reflexivity.
Qed.

Lemma Qle_b_iff (a b : Q) : Qle_b a b = true <-> (a <= b)%Q.
Proof. unfold Qle_b, Qle. apply Z.leb_le. Qed.

Lemma fge_zero_not_negative (x : float64) :
  fge x (Fin 0) = true -> flt x (Fin 0) = false.
Proof.
  destruct x as [a| | |]; cbn [fge fle flt]; try easy.
  intros H. unfold Qle_b, Qlt_b in *. simpl in *.
  apply Z.leb_le in H. apply Z.ltb_ge. lia.
Qed.

Lemma existsb_false_In {A : Type} (f : A -> bool) (l : list A) (x : A) :
  existsb f l = false -> In x l -> f x = false.
Proof.
  intros E Hx. destruct (f x) eqn:Ex; [|reflexivity].
  rewrite <- E. symmetry. apply existsb_exists. now exists x.
Qed.

Lemma validated_rows_valid (rows : list Peak.t) :
  Forall valid_peak (validated_rows rows).
Proof.
  apply Forall_forall. intros p. unfold validated_rows, valid_peak.
  destruct (existsb negative_signal (filter valid_coordinates rows)) eqn:E.
  - intros Hp. apply filter_In in Hp as [Hp Hs].
    apply filter_In in Hp as [_ Hc].
    split; [now apply Z.ltb_lt|now apply fge_zero_not_negative].
  - intros Hp. split.
    + apply filter_In in Hp as [_ Hc]. now apply Z.ltb_lt.
    + exact (existsb_false_In negative_signal _ p E Hp).
Qed.

(** A table of valid rows goes through [validate_peak_file] unchanged. *)
Lemma validated_rows_fixed (rows : list Peak.t) :
  Forall valid_peak rows -> validated_rows rows = rows.
Proof.
  intros H. rewrite Forall_forall in H. unfold validated_rows.
  rewrite (filter_all valid_coordinates rows).
  - destruct (existsb negative_signal rows) eqn:E; [|reflexivity].
    apply existsb_exists in E as (p & Hp & Hn).
    destruct (H p Hp) as [_ Hs]. unfold negative_signal in Hn. congruence.
  - intros p Hp. destruct (H p Hp) as [Hc _]. now apply Z.ltb_lt.
Qed.

Lemma subseq_filter {A : Type} (f : A -> bool) (l : list A) :
  subseq (filter f l) l.
Proof.
  induction l as [|a l IH]; [constructor|]. simpl.
  destruct (f a); now constructor.
Qed.

Lemma subseq_trans {A : Type} (l1 l2 l3 : list A) :
  subseq l1 l2 -> subseq l2 l3 -> subseq l1 l3.
Proof.
  intros H12 H23. revert l1 H12.
  induction H23 as [|x l2 l3 _ IH|x l2 l3 _ IH]; intros l1 H12.
  - exact H12.
  - constructor. now apply IH.
  - inversion H12 as [|? ? ? H|? ? ? H]; subst; constructor; now apply IH.
Qed.

Lemma validated_rows_subseq (rows : list Peak.t) :
  subseq (validated_rows rows) rows.
Proof.
  unfold validated_rows.
  destruct (existsb negative_signal (filter valid_coordinates rows)).
  - eapply subseq_trans; apply subseq_filter.
  - apply subseq_filter.
Qed.

(** No row with start < end has a negative signal. *)
Lemma no_negative_signal_iff (rows : list Peak.t) :
  existsb negative_signal (filter valid_coordinates rows) = false
  <-> (forall r, In r rows -> Peak.start r < Peak.end_ r ->
                 flt (Peak.signalValue r) (Fin 0) = false).
Proof.
  split.
  - intros E r Hr Hc.
    apply (existsb_false_In negative_signal _ r E).
    apply filter_In. split; [exact Hr|now apply Z.ltb_lt].
  - intros H.
    destruct (existsb negative_signal (filter valid_coordinates rows))
      eqn:E; [|reflexivity].
    apply existsb_exists in E as (r & Hr & Hn).
    apply filter_In in Hr as [Hr Hc]. apply Z.ltb_lt in Hc.
    unfold negative_signal in Hn. rewrite (H r Hr Hc) in Hn. discriminate.
Qed.

(** X3.  On peak lines that carry their coordinates, [validate_peak_file]
    returns a table with columns whose rows are rows of the input, in their
    order, each with start < end and a signal that is not negative.  A row
    with a number as signal is kept exactly when start < end and the signal
    is >= 0.  A row whose signal was read as nan is kept exactly when
    start < end and no row with start < end has a negative signal: the
    signal filter only runs when one has.  Validating twice changes nothing
    more. *)
Theorem validate_peak_file_valid (rows : list Peak.t) :
  (exists kept,
     validate_peak_file (Frame rows) = Frame kept
     /\ subseq kept rows
     /\ Forall valid_peak kept
     /\ (forall p s,
           Peak.signalValue p = Fin s ->
           In p kept
           <-> In p rows /\ Peak.start p < Peak.end_ p /\ (0 <= s)%Q)
     /\ (forall p,
           Peak.signalValue p = NaN ->
           In p kept
           <-> In p rows /\ Peak.start p < Peak.end_ p
               /\ (forall r, In r rows -> Peak.start r < Peak.end_ r ->
                              flt (Peak.signalValue r) (Fin 0) = false)))
  /\ validate_peak_file (validate_peak_file (Frame rows))
     = validate_peak_file (Frame rows)
  /\ validate_peak_file EmptyFrame = EmptyFrame.
Proof.
  split; [|split; [|reflexivity]].
  - exists (validated_rows rows).
    split; [apply validate_peak_file_rows|].
    split; [apply validated_rows_subseq|].
    split; [apply validated_rows_valid|].
    split.
    + intros p s Hs. unfold validated_rows.
      destruct (existsb negative_signal (filter valid_coordinates rows))
        eqn:E.
      * rewrite !filter_In, Hs. unfold valid_coordinates.
        cbn [fge fle]. rewrite Z.ltb_lt, Qle_b_iff. tauto.
      * rewrite filter_In. unfold valid_coordinates. rewrite Z.ltb_lt.
        split; [|tauto].
        intros [Hp Hc]. split; [exact Hp|]. split; [exact Hc|].
        pose proof (proj1 (no_negative_signal_iff rows) E p Hp Hc) as Hn.
        rewrite Hs in Hn. cbn [flt] in Hn.
        apply Qle_b_iff. now apply Qlt_b_false.
    + intros p Hs. rewrite <- no_negative_signal_iff. unfold validated_rows.
      destruct (existsb negative_signal (filter valid_coordinates rows))
        eqn:E.
      * rewrite !filter_In, Hs. cbn [fge fle]. split; [easy|].
        intros (_ & _ & H). discriminate.
      * rewrite filter_In. unfold valid_coordinates. rewrite Z.ltb_lt.
        tauto.
  - rewrite !validate_peak_file_rows. f_equal.
    apply validated_rows_fixed, validated_rows_valid.
Qed.

Lemma validate_peak_file_valid_witness :
  In (Fixture.line_without_signal "chr1" 300 400)
     (frame_rows (validate_peak_file (Frame Fixture.rows_without_signal)))
  /\ ~ In (Fixture.line_without_signal "chr1" 300 400)
          (frame_rows
             (validate_peak_file
                (Frame (Fixture.line_without_signal "chr1" 300 400
                        :: Fixture.raw_rows))))
  /\ ~ In (Fixture.peak "chr1" 600 700 (-1) (1 # 100))
          (frame_rows (validate_peak_file (Frame Fixture.raw_rows))).
Proof.
  split; [|split].
  - destruct (validate_peak_file_valid Fixture.rows_without_signal)
      as ((kept & -> & _ & _ & _ & Hnan) & _).
    cbn [frame_rows].
    apply (Hnan (Fixture.line_without_signal "chr1" 300 400) eq_refl).
    split; [simpl; tauto|]. split; [reflexivity|].
    intros r [<-|[<-|[<-|[]]]] _; reflexivity.
  - destruct (validate_peak_file_valid
                (Fixture.line_without_signal "chr1" 300 400
                 :: Fixture.raw_rows))
      as ((kept & -> & _ & _ & _ & Hnan) & _).
    cbn [frame_rows]. intros H.
    apply (Hnan (Fixture.line_without_signal "chr1" 300 400) eq_refl) in H.
    destruct H as (_ & _ & H).
    specialize (H (Fixture.peak "chr1" 600 700 (-1) (1 # 100))).
    assert (E : true = false); [|discriminate E].
    apply H; [simpl; tauto|reflexivity].
  - destruct (validate_peak_file_valid Fixture.raw_rows)
      as ((kept & -> & _ & _ & Hfin & _) & _).
    cbn [frame_rows]. intros H.
    apply (Hfin (Fixture.peak "chr1" 600 700 (-1) (1 # 100)) (-1)%Q eq_refl)
      in H.
    destruct H as (_ & _ & H). now apply H.
Defined.

Lemma depth_at_least_one (b : bam_file) :
  1 <= calculate_sequencing_depth_safe b.
Proof. destruct b; simpl; lia. Qed.

Lemma scale_nonneg (depth : Z) : 1 <= depth -> (0 <= 1000000 / inject_Z depth)%Q.
Proof.
  intros H. apply Qle_shift_div_l.
  - unfold Qlt. simpl. lia.
  - unfold Qle. simpl. lia.
Qed.

Lemma normalize_signal_nonneg (depth : Z) (v : Q) :
  1 <= depth -> (0 <= normalize_signal depth v)%Q.
Proof.
  intros H. unfold normalize_signal. rewrite Qred_correct.
  apply Qmult_le_0_compat; [|now apply scale_nonneg].
  destruct (Qlt_b v 0) eqn:E; [apply Qle_refl|].
  apply Qle_b_iff. now apply Qlt_b_false.
Qed.

(** X4.  The depth used as divisor is at least 1 whatever the BAM file
    yields; the normalized signal is never negative, is 0 for a negative
    signal and signal * 1e6 / depth otherwise. *)
Theorem normalize_signal_spec (b : bam_file) (v : Q) :
  1 <= calculate_sequencing_depth_safe b
  /\ (0 <= normalize_signal (calculate_sequencing_depth_safe b) v)%Q
  /\ ((v < 0)%Q ->
      (normalize_signal (calculate_sequencing_depth_safe b) v == 0)%Q)
  /\ ((0 <= v)%Q ->
      (normalize_signal (calculate_sequencing_depth_safe b) v
       == v * 1000000 / inject_Z (calculate_sequencing_depth_safe b))%Q).
Proof.
  pose proof (depth_at_least_one b) as Hd.
  split; [exact Hd|]. split; [now apply normalize_signal_nonneg|].
  unfold normalize_signal. split; intros Hv; rewrite Qred_correct.
  - assert (E : Qlt_b v 0 = true) by (apply Z.ltb_lt; exact Hv).
    rewrite E. apply Qmult_0_l.
  - assert (E : Qlt_b v 0 = false).
    { apply Z.ltb_ge. unfold Qle in Hv. exact Hv. }
    rewrite E. unfold Qdiv. apply Qmult_assoc.
Qed.

Lemma normalize_signal_spec_witness :
  (normalize_signal (calculate_sequencing_depth_safe (BamCount 2000000))
     (-3) == 0)%Q
  /\ (normalize_signal (calculate_sequencing_depth_safe BamMissing) 3
      == 3 * 1000000 / 1)%Q.
Proof.
  split.
  - apply (proj1 (proj2 (proj2 (normalize_signal_spec (BamCount 2000000)
                                  (-3))))).
    reflexivity.
  - apply (proj2 (proj2 (proj2 (normalize_signal_spec BamMissing 3)))).
    discriminate.
Defined.

(** ** What [load_data] returns *)





(** [load_data] succeeds only past the three failure points, and then
    returns the tables [load_sample] builds. *)
Lemma load_data_Ok (w : World) (loaded : Loaded) :
  load_data w = Ok loaded ->
  exists dea ann,
    dea_csv w = Ok dea
    /\ forallb df_empty (dict_values (map (load_sample w) exo_samples))
       = false
    /\ forallb df_empty (dict_values (map (load_sample w) endo_samples))
       = false
    /\ load_gene_annotations w = Ok ann
    /\ loaded = (dea, map (load_sample w) exo_samples,
                 map (load_sample w) endo_samples, fst ann, snd ann).
Proof.
  unfold load_data.
  destruct (dea_csv w) as [dea|]; [|discriminate]. cbn [bind].
  destruct (forallb df_empty (dict_values (map (load_sample w) exo_samples)));
    [discriminate|].
  destruct (forallb df_empty (dict_values (map (load_sample w) endo_samples)));
    [discriminate|].
  cbn [orb].
  destruct (load_gene_annotations w) as [ann|]; [|discriminate].
  cbn [bind]. intros [= <-]. now exists dea, ann.
Qed.



(** X6.  [load_data] fails first on an unreadable differential-expression
    table, then on a condition without any non-empty peak table, then on the
    annotation; it succeeds exactly when none of the three applies. *)
Theorem load_data_outcome (w : World) :
  (forall e, dea_csv w = Raise e -> load_data w = Raise e)
  /\ (forall dea e,
        dea_csv w = Ok dea ->
        forallb df_empty (dict_values (map (load_sample w) exo_samples))
        = false ->
        forallb df_empty (dict_values (map (load_sample w) endo_samples))
        = false ->
        load_gene_annotations w = Raise e ->
        load_data w = Raise e)
  /\ ((exists loaded, load_data w = Ok loaded)
      <-> (exists dea, dea_csv w = Ok dea)
          /\ forallb df_empty (dict_values (map (load_sample w) exo_samples))
             = false
          /\ forallb df_empty
               (dict_values (map (load_sample w) endo_samples)) = false
          /\ (exists ann, load_gene_annotations w = Ok ann)).
Proof.
  split; [|split].
  - intros e H. unfold load_data. now rewrite H.
  - intros dea e Hd Hx He Ha. unfold load_data.
    now rewrite Hd, Hx, He, Ha.
  - split.
    + intros (loaded & H).
      apply load_data_Ok in H as (dea & ann & Hd & Hx & He & Ha & _).
      split; [now exists dea|]. split; [exact Hx|]. split; [exact He|].
      now exists ann.
    + intros ((dea & Hd) & Hx & He & (ann & Ha)).
      unfold load_data. rewrite Hd, Hx, He, Ha. cbn. eauto.
Qed.

Lemma load_data_outcome_witness :
  load_data Fixture.world_no_dea
  = Raise (FileNotFoundError "../DATA/DEA_NSC.csv")
  /\ load_data Fixture.world_no_annotation
     = Raise (FileNotFoundError "GTF file not found")
  /\ exists loaded, load_data (Fixture.world Fixture.dea_two_genes)
                    = Ok loaded.
Proof.
  split; [|split].
  - apply (proj1 (load_data_outcome Fixture.world_no_dea)). reflexivity.
  - apply (proj1 (proj2 (load_data_outcome Fixture.world_no_annotation))
             Fixture.dea_two_genes); reflexivity.
  - apply (proj2 (proj2 (proj2 (load_data_outcome
                                  (Fixture.world Fixture.dea_two_genes))))).
    split; [eexists; reflexivity|]. split; [reflexivity|].
    split; [reflexivity|]. eexists; reflexivity.
Defined.

(** ** The promoter lookup, beyond membership *)

Lemma collect_overlapping_rows (g : Gene.t) (region : Z * Z)
  (items : dict DataFrame) (all_peaks : list (list Peak.t)) :
  collect_overlapping g region items = Ok all_peaks ->
  List.concat all_peaks = rows_near g region items
  /\ Forall (fun l => l <> []) all_peaks
  /\ Forall has_columns (dict_values items).
Proof.
  revert all_peaks.
  induction items as [|[sample peaks] rest IH]; intros all_peaks.
  - intros [= <-]. repeat split; constructor.
  - cbn [collect_overlapping]. destruct peaks as [|rows]; [discriminate|].
    destruct (collect_overlapping g region rest) as [l|]; [|discriminate].
    destruct (IH l eq_refl) as (Hc & Hne & Hcols). cbn [bind].
    assert (Hcols' : Forall has_columns
                       (dict_values ((sample, Frame rows) :: rest))).
    { constructor; [exact I|exact Hcols]. }
    unfold rows_near in *. cbn [flat_map fst snd frame_rows].
    destruct (filter (overlaps g region) rows) as [|p ps].
    + intros [= <-]. now repeat split.
    + intros [= <-]. cbn [List.concat]. rewrite Hc.
      repeat split; [|exact Hcols'].
      constructor; [discriminate|exact Hne].
Qed.

Lemma collect_overlapping_raises (g : Gene.t) (region : Z * Z)
  (items : dict DataFrame) :
  In EmptyFrame (dict_values items) ->
  collect_overlapping g region items = Raise (KeyError "chr").
Proof.
  induction items as [|[sample peaks] rest IH]; intros H; [destruct H|].
  cbn [collect_overlapping]. destruct peaks as [|rows]; [reflexivity|].
  destruct H as [H|H]; [discriminate|]. now rewrite (IH H).
Qed.

Lemma collect_overlapping_exn (g : Gene.t) (region : Z * Z)
  (items : dict DataFrame) (e : exn) :
  collect_overlapping g region items = Raise e -> e = KeyError "chr".
Proof.
  induction items as [|[sample peaks] rest IH]; [discriminate|].
  cbn [collect_overlapping]. destruct peaks as [|rows]; [now intros [= <-]|].
  destruct (collect_overlapping g region rest) as [l|e']; cbn [bind].
  - destruct (filter (overlaps g region) rows); discriminate.
  - intros [= <-]. now apply IH.
Qed.

Lemma concat_nonempty {A : Type} (l : list (list A)) :
  Forall (fun x => x <> []) l -> l <> [] ->
  exists a rest, List.concat l = a :: rest.
Proof.
  destruct l as [|[|a l0] l]; intros H Hne; [congruence| |].
  - inversion H; congruence.
  - simpl. eauto.
Qed.

(** What a successful lookup holds, for a gene the annotation resolves. *)
Lemma get_peaks_near_gene_resolved (gene : string)
  (peaks_dict : dict DataFrame) (ann : list Gene.t) (n2i : name_to_info_t)
  (window : Z) (k : string) (info : Gene.t) (subset : DataFrame) :
  standardize_gene_name (Some gene) = Some k ->
  dict_get n2i k = Some info ->
  get_peaks_near_gene gene peaks_dict ann n2i window = Ok subset ->
  frame_rows subset = rows_near info (promoter_region info window) peaks_dict
  /\ lookup_shape subset
  /\ Forall has_columns (dict_values peaks_dict).
Proof.
  intros Hk Hi. unfold get_peaks_near_gene. rewrite Hk, Hi.
  destruct (collect_overlapping info _ peaks_dict) as [l|] eqn:E;
    [|discriminate].
  apply collect_overlapping_rows in E as (Hc & Hne & Hcols). cbn [bind].
  destruct l as [|l0 l'].
  - intros [= <-]. split; [exact Hc|]. split; [now left|exact Hcols].
  - intros [= <-]. split; [exact Hc|]. split; [|exact Hcols].
    right. destruct (concat_nonempty (l0 :: l') Hne) as (a & rest & Ea);
      [discriminate|].
    exists a, rest. exact (f_equal Frame Ea).
Qed.

Lemma get_peaks_near_gene_unresolved (gene : string)
  (peaks_dict : dict DataFrame) (ann : list Gene.t) (n2i : name_to_info_t)
  (window : Z) (k : string) :
  standardize_gene_name (Some gene) = Some k ->
  dict_get n2i k = None ->
  get_peaks_near_gene gene peaks_dict ann n2i window = Ok EmptyFrame.
Proof.
  intros Hk Hi. unfold get_peaks_near_gene. now rewrite Hk, Hi.
Qed.


(** X7.  For a resolved gene and tables with columns, the subset is the
    overlapping rows in sample order and then table order, each tagged with
    its sample, duplicates across samples kept; it is the column-less frame
    when there is none, never a table with zero rows. *)
Theorem get_peaks_near_gene_rows (gene : string)
  (peaks_dict : dict DataFrame) (ann : list Gene.t) (n2i : name_to_info_t)
  (window : Z) (k : string) (info : Gene.t) :
  standardize_gene_name (Some gene) = Some k ->
  dict_get n2i k = Some info ->
  Forall has_columns (dict_values peaks_dict) ->
  exists subset,
    get_peaks_near_gene gene peaks_dict ann n2i window = Ok subset
    /\ frame_rows subset
       = rows_near info (promoter_region info window) peaks_dict
    /\ lookup_shape subset.
Proof.
  intros Hk Hi Hcols.
  destruct (collect_overlapping_spec info (promoter_region info window)
              peaks_dict Hcols) as (l & El & _).
  assert (E : exists subset,
             get_peaks_near_gene gene peaks_dict ann n2i window = Ok subset).
  { unfold get_peaks_near_gene. rewrite Hk, Hi, El. cbn [bind].
    destruct l; eauto. }
  destruct E as (subset & E). exists subset. split; [exact E|].
  destruct (get_peaks_near_gene_resolved gene peaks_dict ann n2i window
              k info subset Hk Hi E) as (Hr & Hs & _).
  now split.
Qed.

Lemma get_peaks_near_gene_rows_witness :
  exists subset,
    get_peaks_near_gene "GeneA" Fixture.boundary_peaks
      [Fixture.geneA; Fixture.geneB] Fixture.name_to_info PROMOTER_WINDOW
    = Ok subset
    /\ frame_rows subset
       = [Peak.set_sample "NSCv1" Fixture.at_window_end;
          Peak.set_sample "NSCv2" Fixture.at_window_start]
    /\ lookup_shape subset.
Proof.
  apply (get_peaks_near_gene_rows "GeneA" Fixture.boundary_peaks
           [Fixture.geneA; Fixture.geneB] Fixture.name_to_info
           PROMOTER_WINDOW "GeneA" Fixture.geneA eq_refl eq_refl).
  repeat constructor.
Defined.

(** X8.  A gene the annotation does not know is no error: both lookups
    return the empty frame whatever the tables hold, and the gene loop
    appends no record for it, whatever the method. *)
Theorem unannotated_gene_no_record (dea : list (Dea.row * option string))
  (peaks_exo peaks_endo : dict DataFrame) (ann : list Gene.t)
  (n2i : name_to_info_t) (method_func : method_t) (gene k : string)
  (window : Z) :
  standardize_gene_name (Some gene) = Some k ->
  dict_get n2i k = None ->
  get_peaks_near_gene gene peaks_exo ann n2i window = Ok EmptyFrame
  /\ get_peaks_near_gene gene peaks_endo ann n2i window = Ok EmptyFrame
  /\ score_gene dea peaks_exo peaks_endo ann n2i method_func gene = Ok None
  /\ process_gene dea peaks_exo peaks_endo ann n2i method_func gene = [].
Proof.
  intros Hk Hi.
  pose proof (fun d w => get_peaks_near_gene_unresolved gene d ann n2i w
                           k Hk Hi) as H.
  split; [apply H|]. split; [apply H|].
  unfold process_gene, score_gene. rewrite !H. now split.
Qed.

Lemma unannotated_gene_no_record_witness :
  get_peaks_near_gene "Xist" Fixture.peaks_with_missing
    [Fixture.geneA; Fixture.geneB] Fixture.name_to_info PROMOTER_WINDOW
  = Ok EmptyFrame
  /\ process_gene (with_gene_std Fixture.dea_two_genes)
       Fixture.peaks_with_missing Fixture.peaks_near
       [Fixture.geneA; Fixture.geneB] Fixture.name_to_info
       peak_count "Xist" = [].
Proof.
  destruct (unannotated_gene_no_record
              (with_gene_std Fixture.dea_two_genes)
              Fixture.peaks_with_missing Fixture.peaks_near
              [Fixture.geneA; Fixture.geneB] Fixture.name_to_info
              peak_count "Xist" "Xist" PROMOTER_WINDOW eq_refl eq_refl)
    as (H1 & _ & _ & H4).
  now split.
Defined.

(** X9.  One column-less table in a condition (a peak file that was missing
    or unreadable) makes the lookup of every annotated gene raise KeyError;
    the gene loop swallows it, so every method's list of records comes out
    empty. *)
Theorem columnless_table_empties_results
  (dea : list (Dea.row * option string))
  (peaks_exo peaks_endo : dict DataFrame) (ann : list Gene.t)
  (n2i : name_to_info_t) (method_func : method_t) :
  In EmptyFrame (dict_values peaks_exo)
  \/ In EmptyFrame (dict_values peaks_endo) ->
  (forall gene k info,
     standardize_gene_name (Some gene) = Some k ->
     dict_get n2i k = Some info ->
     score_gene dea peaks_exo peaks_endo ann n2i method_func gene
     = Raise (KeyError "chr"))
  /\ enrichment_scores dea peaks_exo peaks_endo ann n2i method_func = [].
Proof.
  intros H.
  assert (Hres : forall gene k info,
             standardize_gene_name (Some gene) = Some k ->
             dict_get n2i k = Some info ->
             score_gene dea peaks_exo peaks_endo ann n2i method_func gene
             = Raise (KeyError "chr")).
  { intros gene k info Hk Hi. unfold score_gene, get_peaks_near_gene.
    rewrite Hk, Hi.
    destruct H as [H|H].
    - now rewrite (collect_overlapping_raises info _ peaks_exo H).
    - rewrite (collect_overlapping_raises info _ peaks_endo H).
      destruct (collect_overlapping info _ peaks_exo) as [l|e] eqn:E.
      + cbn [bind]. now destruct l.
      + now rewrite (collect_overlapping_exn info _ peaks_exo e E). }
  split; [exact Hres|].
  unfold enrichment_scores.
  induction (upreg_genes dea) as [|gene genes IH]; [reflexivity|].
  cbn [flat_map]. rewrite IH, app_nil_r. unfold process_gene.
  destruct (standardize_gene_name (Some gene)) as [k|] eqn:Hk;
    [|discriminate Hk].
  destruct (dict_get n2i k) as [info|] eqn:Hi.
  - now rewrite (Hres gene k info Hk Hi).
  - unfold score_gene.
    now rewrite !(get_peaks_near_gene_unresolved gene _ ann n2i
                    PROMOTER_WINDOW k Hk Hi).
Qed.

Lemma columnless_table_empties_results_witness :
  score_gene (with_gene_std Fixture.dea_two_genes)
    Fixture.peaks_with_missing Fixture.peaks_near
    [Fixture.geneA; Fixture.geneB] Fixture.name_to_info signal_ratio "GeneA"
  = Raise (KeyError "chr")
  /\ enrichment_scores (with_gene_std Fixture.dea_two_genes)
       Fixture.peaks_with_missing Fixture.peaks_near
       [Fixture.geneA; Fixture.geneB] Fixture.name_to_info signal_ratio
     = [].
Proof.
  destruct (columnless_table_empties_results
              (with_gene_std Fixture.dea_two_genes)
              Fixture.peaks_with_missing Fixture.peaks_near
              [Fixture.geneA; Fixture.geneB] Fixture.name_to_info
              signal_ratio) as [H1 H2].
  { left. right. left. reflexivity. }
  split; [|exact H2].
  exact (H1 "GeneA" "GeneA" Fixture.geneA eq_refl eq_refl).
Defined.

Lemma overlaps_wider (info : Gene.t) (w1 w2 : Z) (p : Peak.t) :
  w1 <= w2 ->
  overlaps info (promoter_region info w1) p = true ->
  overlaps info (promoter_region info w2) p = true.
Proof.
  intros Hw. rewrite !overlaps_spec. unfold promoter_region.
  destruct (String.eqb (Gene.strand info) "+"); cbn [fst snd];
    intros (Hc & Hs & He); (split; [exact Hc|]); lia.
Qed.

(** X10.  Widening the window never loses a peak: whenever the lookup with
    the smaller window returns, the lookup with the larger one returns too
    and holds every row of the smaller result. *)
Theorem get_peaks_near_gene_window_monotone (gene : string)
  (peaks_dict : dict DataFrame) (ann : list Gene.t) (n2i : name_to_info_t)
  (w1 w2 : Z) (s1 : DataFrame) :
  w1 <= w2 ->
  get_peaks_near_gene gene peaks_dict ann n2i w1 = Ok s1 ->
  exists s2,
    get_peaks_near_gene gene peaks_dict ann n2i w2 = Ok s2
    /\ incl (frame_rows s1) (frame_rows s2).
Proof.
  intros Hw H1.
  destruct (standardize_gene_name (Some gene)) as [k|] eqn:Hk;
    [|discriminate Hk].
  destruct (dict_get n2i k) as [info|] eqn:Hi.
  - destruct (get_peaks_near_gene_resolved gene peaks_dict ann n2i w1
                k info s1 Hk Hi H1) as (Hr1 & _ & Hcols).
    destruct (collect_overlapping_spec info (promoter_region info w2)
                peaks_dict Hcols) as (l & El & _).
    assert (E : exists s2,
               get_peaks_near_gene gene peaks_dict ann n2i w2 = Ok s2).
    { unfold get_peaks_near_gene. rewrite Hk, Hi, El. cbn [bind].
      destruct l; eauto. }
    destruct E as (s2 & E). exists s2. split; [exact E|].
    destruct (get_peaks_near_gene_resolved gene peaks_dict ann n2i w2
                k info s2 Hk Hi E) as (Hr2 & _).
    rewrite Hr1, Hr2. unfold rows_near. intros q Hq.
    apply in_flat_map in Hq as (kv & Hkv & Hq).
    apply in_flat_map. exists kv. split; [exact Hkv|].
    apply in_map_iff in Hq as (p & <- & Hp). apply in_map.
    apply filter_In in Hp as [Hp Ho]. apply filter_In.
    split; [exact Hp|]. now apply (overlaps_wider info w1 w2).
  - rewrite (get_peaks_near_gene_unresolved gene peaks_dict ann n2i w1
               k Hk Hi) in H1.
    injection H1 as <-. exists EmptyFrame.
    split; [now apply (get_peaks_near_gene_unresolved gene peaks_dict ann
                         n2i w2 k)|].
    intros q [].
Qed.

Lemma get_peaks_near_gene_window_monotone_witness :
  exists s2,
    get_peaks_near_gene "GeneA" Fixture.boundary_peaks
      [Fixture.geneA; Fixture.geneB] Fixture.name_to_info 2001 = Ok s2
    /\ incl [Peak.set_sample "NSCv1" Fixture.at_window_end;
             Peak.set_sample "NSCv2" Fixture.at_window_start]
            (frame_rows s2).
Proof.
  apply (get_peaks_near_gene_window_monotone "GeneA" Fixture.boundary_peaks
           [Fixture.geneA; Fixture.geneB] Fixture.name_to_info 2000 2001
           (Frame [Peak.set_sample "NSCv1" Fixture.at_window_end;
                   Peak.set_sample "NSCv2" Fixture.at_window_start])).
  - lia.
  - reflexivity.
Defined.

(** X11.  The lookup ignores a version suffix: asking for a name and for
    the same name followed by a dot and anything gives the same result. *)
Theorem get_peaks_near_gene_version (gene version : string)
  (peaks_dict : dict DataFrame) (ann : list Gene.t) (n2i : name_to_info_t)
  (window : Z) :
  has_dot gene = false ->
  get_peaks_near_gene (gene ++ "." ++ version) peaks_dict ann n2i window
  = get_peaks_near_gene gene peaks_dict ann n2i window.
Proof.
  intros H. unfold get_peaks_near_gene.
  rewrite !standardize_gene_name_Some.
  change (gene ++ "." ++ version)%string
    with (gene ++ String "." version)%string.
  now rewrite (split_dot_head_append gene version H),
              (split_dot_head_fixed gene H).
Qed.

Lemma get_peaks_near_gene_version_witness :
  get_peaks_near_gene ("ENSG01" ++ "." ++ "7") Fixture.boundary_peaks
    [Fixture.geneA; Fixture.geneB] Fixture.name_to_info PROMOTER_WINDOW
  = get_peaks_near_gene "ENSG01" Fixture.boundary_peaks
      [Fixture.geneA; Fixture.geneB] Fixture.name_to_info PROMOTER_WINDOW.
Proof.
  apply (get_peaks_near_gene_version "ENSG01" "7"). reflexivity.
Defined.

(** ** The background count of the statistical method *)

Lemma fold_add_lengths (d : dict DataFrame) (a : Z) :
  fold_left Z.add (map (fun df => Z.of_nat (df_len df)) (dict_values d)) a
  = a + Z.of_nat (List.length (all_rows d)).
Proof.
  revert a. induction d as [|[k df] d IH]; intros a; simpl; [lia|].
  rewrite IH. unfold all_rows. cbn [flat_map snd].
  rewrite length_app. unfold df_len. lia.
Qed.

Lemma calculate_total_genome_peaks_rows (peaks_exo peaks_endo : dict DataFrame) :
  calculate_total_genome_peaks peaks_exo peaks_endo
  = Z.of_nat (List.length (all_rows peaks_exo)
              + List.length (all_rows peaks_endo)).
Proof.
  unfold calculate_total_genome_peaks. rewrite !fold_add_lengths. lia.
Qed.

Lemma filter_length {A : Type} (f : A -> bool) (l : list A) :
  (List.length (filter f l) <= List.length l)%nat.
Proof.
  induction l as [|a l IH]; simpl; [lia|]. destruct (f a); simpl; lia.
Qed.

Lemma rows_near_length (g : Gene.t) (region : Z * Z) (d : dict DataFrame) :
  (List.length (rows_near g region d) <= List.length (all_rows d))%nat.
Proof.
  unfold rows_near, all_rows.
  induction d as [|[k df] d IH]; simpl; [lia|].
  rewrite !length_app, length_map.
  pose proof (filter_length (overlaps g region) (frame_rows df)). lia.
Qed.

Lemma groupby_len_bound (df : DataFrame) (a : Z) :
  groupby_len df = Ok a -> 0 <= a <= Z.of_nat (df_len df).
Proof.
  destruct df as [|rows]; [discriminate|]. intros [= <-].
  unfold df_len. cbn [frame_rows].
  assert (H : (List.length (nodup locus_eq_dec (map locus_of rows))
               <= List.length (map locus_of rows))%nat).
  { apply NoDup_incl_length; [apply NoDup_nodup|].
    intros x Hx. now apply nodup_In in Hx. }
  rewrite length_map in H. lia.
Qed.

Lemma lookup_length (gene : string) (d : dict DataFrame) (ann : list Gene.t)
  (n2i : name_to_info_t) (window : Z) (subset : DataFrame) :
  get_peaks_near_gene gene d ann n2i window = Ok subset ->
  (df_len subset <= List.length (all_rows d))%nat.
Proof.
  intros H.
  destruct (standardize_gene_name (Some gene)) as [k|] eqn:Hk;
    [|discriminate Hk].
  destruct (dict_get n2i k) as [info|] eqn:Hi.
  - destruct (get_peaks_near_gene_resolved gene d ann n2i window k info
                subset Hk Hi H) as (Hr & _).
    unfold df_len. rewrite Hr. apply rows_near_length.
  - rewrite (get_peaks_near_gene_unresolved gene d ann n2i window k Hk Hi)
      in H.
    injection H as <-. unfold df_len. simpl. lia.
Qed.

(** X12.  The total is the number of rows of all tables of both conditions,
    and the number of distinct loci of a looked-up subset never exceeds it:
    no entry of the 2x2 table handed to [fisher_exact] is negative. *)
Theorem fisher_table_nonnegative (gene : string)
  (peaks_exo peaks_endo : dict DataFrame) (ann : list Gene.t)
  (n2i : name_to_info_t) (window : Z) (exo endo : DataFrame) (a b : Z) :
  get_peaks_near_gene gene peaks_exo ann n2i window = Ok exo ->
  get_peaks_near_gene gene peaks_endo ann n2i window = Ok endo ->
  groupby_len exo = Ok a ->
  groupby_len endo = Ok b ->
  calculate_total_genome_peaks peaks_exo peaks_endo
  = Z.of_nat (List.length (all_rows peaks_exo)
              + List.length (all_rows peaks_endo))
  /\ 0 <= a /\ 0 <= b
  /\ 0 <= calculate_total_genome_peaks peaks_exo peaks_endo - a
  /\ 0 <= calculate_total_genome_peaks peaks_exo peaks_endo - b.
Proof.
  intros Hx He Ha Hb.
  pose proof (calculate_total_genome_peaks_rows peaks_exo peaks_endo) as Ht.
  apply lookup_length in Hx, He.
  apply groupby_len_bound in Ha, Hb. split; [exact Ht|]. lia.
Qed.

Lemma fisher_table_nonnegative_witness :
  calculate_total_genome_peaks Fixture.peaks_exo_near Fixture.peaks_near = 2
  /\ 0 <= 1 /\ 0 <= 1
  /\ 0 <= calculate_total_genome_peaks Fixture.peaks_exo_near
            Fixture.peaks_near - 1
  /\ 0 <= calculate_total_genome_peaks Fixture.peaks_exo_near
            Fixture.peaks_near - 1.
Proof.
  apply (fisher_table_nonnegative "GeneA" Fixture.peaks_exo_near
           Fixture.peaks_near [Fixture.geneA; Fixture.geneB]
           Fixture.name_to_info PROMOTER_WINDOW
           (Frame [Peak.set_sample "NSCv1"
                     (Fixture.peak "chr1" 9900 10100 1 (1 # 100))])
           (Frame [Peak.set_sample "NSCM1"
                     (Fixture.peak "chr1" 9950 10050 1 (1 # 100))])
           1 1); reflexivity.
Defined.

(** ** The scoring methods on empty and non-empty subsets *)

(** X13.  [signal_ratio] never raises: it returns a value for every pair of
    subsets, the column-less empty frame included. *)
Theorem signal_ratio_never_raises (exo endo : DataFrame) :
  exists v, signal_ratio exo endo = Ok v.
Proof.
  unfold signal_ratio.
  destruct (nonempty exo) eqn:Hx; [|cbn; eauto].
  destruct (nonempty endo) eqn:He; [|cbn; eauto].
  rewrite (nonempty_has_columns exo Hx), (nonempty_has_columns endo He).
  cbn. eauto.
Qed.

(** X14.  With an empty exogenous subset the four guarded ratio methods
    return 0.0 without reading the endogenous subset at all. *)
Theorem empty_exo_scores_zero (log10 : Q -> Q) (exo endo : DataFrame) :
  df_len exo = 0%nat ->
  combined_score exo endo = Ok (Fin 0)
  /\ width_weighted exo endo = Ok (Fin 0)
  /\ coverage_score exo endo = Ok (Fin 0)
  /\ area_integration log10 exo endo = Ok (Fin 0).
Proof.
  intros H. apply nonempty_false in H.
  unfold combined_score, width_weighted, coverage_score, area_integration.
  now rewrite H.
Qed.

Lemma empty_exo_scores_zero_witness :
  combined_score (Frame []) EmptyFrame = Ok (Fin 0)
  /\ width_weighted (Frame []) EmptyFrame = Ok (Fin 0)
  /\ coverage_score (Frame []) EmptyFrame = Ok (Fin 0)
  /\ area_integration Fixture.log10_stub (Frame []) EmptyFrame = Ok (Fin 0).
Proof.
  apply (empty_exo_scores_zero Fixture.log10_stub (Frame []) EmptyFrame).
  reflexivity.
Defined.

(** X15.  With a non-empty exogenous subset and the column-less empty frame
    as endogenous subset, the same four methods raise KeyError on the first
    endogenous column they read, instead of dividing by the floor 1. *)
Theorem exo_only_raises (log10 : Q -> Q) (p : Peak.t) (ps : list Peak.t) :
  combined_score (Frame (p :: ps)) EmptyFrame = Raise (KeyError "signalValue")
  /\ width_weighted (Frame (p :: ps)) EmptyFrame
     = Raise (KeyError "signalValue")
  /\ coverage_score (Frame (p :: ps)) EmptyFrame = Raise (KeyError "end")
  /\ area_integration log10 (Frame (p :: ps)) EmptyFrame
     = Raise (KeyError "end").
Proof. repeat split. Qed.













(** ** Records of the gene loop *)

Lemma process_gene_In (dea : list (Dea.row * option string))
  (peaks_exo peaks_endo : dict DataFrame) (ann : list Gene.t)
  (n2i : name_to_info_t) (f : method_t) (gene : string) (r : Rec.t) :
  In r (process_gene dea peaks_exo peaks_endo ann n2i f gene)
  <-> score_gene dea peaks_exo peaks_endo ann n2i f gene = Ok (Some r).
Proof.
  unfold process_gene.
  destruct (score_gene dea peaks_exo peaks_endo ann n2i f gene)
    as [[r'|]|e]; simpl; split; try easy.
  - intros [->|[]]. reflexivity.
  - intros [= ->]. now left.
Qed.

(** Where a record comes from. *)
Lemma score_gene_Some (dea : list (Dea.row * option string))
  (peaks_exo peaks_endo : dict DataFrame) (ann : list Gene.t)
  (n2i : name_to_info_t) (f : method_t) (gene : string) (r : Rec.t) :
  score_gene dea peaks_exo peaks_endo ann n2i f gene = Ok (Some r) ->
  exists exo endo row,
    get_peaks_near_gene gene peaks_exo ann n2i PROMOTER_WINDOW = Ok exo
    /\ get_peaks_near_gene gene peaks_endo ann n2i PROMOTER_WINDOW = Ok endo
    /\ negb (df_empty exo) || negb (df_empty endo) = true
    /\ f exo endo = Ok (Rec.enrichment_score r)
    /\ isnan (Rec.enrichment_score r) = false
    /\ find (gene_std_is gene) dea = Some row
    /\ r = Rec.mk gene (Rec.enrichment_score r)
             (Dea.log2FoldChange (fst row)) (Dea.padj (fst row))
             (join_coords (coords exo)) (join_coords (coords endo))
             (List.length (coords exo)) (List.length (coords endo)).
Proof.
  unfold score_gene.
  destruct (get_peaks_near_gene gene peaks_exo _ _ _) as [exo|] eqn:Hx;
    [|discriminate].
  destruct (get_peaks_near_gene gene peaks_endo _ _ _) as [endo|] eqn:He;
    [|discriminate].
  cbn [bind].
  destruct (negb (df_empty exo) || negb (df_empty endo)) eqn:Hne;
    [|discriminate].
  destruct (f exo endo) as [score|] eqn:Hf; [|discriminate]. cbn [bind].
  destruct (iloc0 (filter (gene_std_is gene) dea)) as [row|] eqn:Erow;
    [|discriminate].
  cbn [bind]. destruct (isnan score) eqn:Hnan; [discriminate|].
  cbn [negb]. intros [= <-]. exists exo, endo, row. cbn [Rec.enrichment_score].
  apply iloc0_filter_find in Erow. now repeat split.
Qed.

Lemma coords_length (df : DataFrame) : List.length (coords df) = df_len df.
Proof.
  unfold coords, df_len, df_empty.
  destruct (frame_rows df); [reflexivity|]. now rewrite length_map.
Qed.

Lemma contains_append (c : ascii) (a b : string) :
  contains c (a ++ b) = contains c a || contains c b.
Proof.
  induction a as [|d a IH]; simpl; [reflexivity|].
  now rewrite IH, orb_assoc.
Qed.

Lemma coord_has_colon (p : Peak.t) : contains ":" (coord p) = true.
Proof.
  unfold coord. rewrite !contains_append. simpl.
  now rewrite orb_true_r.
Qed.

(** A joined coordinate list reads None only when the list is empty. *)
Lemma join_coords_None (df : DataFrame) :
  join_coords (coords df) = "None" <-> df_len df = 0%nat.
Proof.
  rewrite <- coords_length. unfold coords.
  destruct (df_empty df); [easy|].
  destruct (frame_rows df) as [|p rows]; [easy|].
  split; [|discriminate]. intros H. exfalso.
  assert (Hc : contains ":" (join_coords (map coord (p :: rows))) = true).
  { cbn [map join_coords String.concat].
    destruct (map coord rows); [apply coord_has_colon|].
    rewrite contains_append, coord_has_colon. reflexivity. }
  rewrite H in Hc. discriminate.
Qed.

(** X17.  Every record of the gene loop is backed by the two lookups of its
    gene: its score is what the method returned on them and is not nan, its
    peak counts are their row counts and not both zero, and a peak column
    reads None exactly when the count beside it is 0. *)
Theorem record_provenance (dea : list (Dea.row * option string))
  (peaks_exo peaks_endo : dict DataFrame) (ann : list Gene.t)
  (n2i : name_to_info_t) (f : method_t) (gene : string) (r : Rec.t) :
  In r (process_gene dea peaks_exo peaks_endo ann n2i f gene) ->
  exists exo endo,
    get_peaks_near_gene gene peaks_exo ann n2i PROMOTER_WINDOW = Ok exo
    /\ get_peaks_near_gene gene peaks_endo ann n2i PROMOTER_WINDOW = Ok endo
    /\ f exo endo = Ok (Rec.enrichment_score r)
    /\ isnan (Rec.enrichment_score r) = false
    /\ Rec.gene r = gene
    /\ Rec.num_exo_peaks r = df_len exo
    /\ Rec.num_endo_peaks r = df_len endo
    /\ (0 < Rec.num_exo_peaks r + Rec.num_endo_peaks r)%nat
    /\ (Rec.exo_peaks r = "None" <-> Rec.num_exo_peaks r = 0%nat)
    /\ (Rec.endo_peaks r = "None" <-> Rec.num_endo_peaks r = 0%nat).
Proof.
  intros H. apply process_gene_In, score_gene_Some in H
    as (exo & endo & row & Hx & He & Hne & Hf & Hnan & _ & Hr).
  exists exo, endo. rewrite Hr at 3 4 5 6 7 8 9 10 11.
  cbn [Rec.gene Rec.num_exo_peaks Rec.num_endo_peaks Rec.exo_peaks
       Rec.endo_peaks].
  rewrite !coords_length.
  repeat split; try assumption; try apply join_coords_None.
  unfold df_len, df_empty in *.
  destruct (frame_rows exo), (frame_rows endo); simpl in *;
    try discriminate; lia.
Qed.

Lemma record_provenance_witness :
  exists exo endo,
    get_peaks_near_gene "GeneA" Fixture.peaks_exo_near
      [Fixture.geneA; Fixture.geneB] Fixture.name_to_info PROMOTER_WINDOW
    = Ok exo
    /\ get_peaks_near_gene "GeneA" Fixture.peaks_near
         [Fixture.geneA; Fixture.geneB] Fixture.name_to_info PROMOTER_WINDOW
       = Ok endo
    /\ signal_ratio exo endo = Ok (Fin 1)
    /\ isnan (Fin 1) = false
    /\ "GeneA" = "GeneA"
    /\ 1%nat = df_len exo
    /\ 1%nat = df_len endo
    /\ (0 < 1 + 1)%nat
    /\ ("chr1:9900-10100" = "None" <-> 1%nat = 0%nat)
    /\ ("chr1:9950-10050" = "None" <-> 1%nat = 0%nat).
Proof.
  apply (record_provenance (with_gene_std Fixture.dea_duplicates)
           Fixture.peaks_exo_near Fixture.peaks_near
           [Fixture.geneA; Fixture.geneB] Fixture.name_to_info
           signal_ratio "GeneA" Fixture.record_geneA).
  left. reflexivity.
Defined.





(** ** The list of up-regulated genes *)

(** X19.  A name is on the gene list exactly when some row of the table
    has log2FoldChange > 0.5, padj < 0.05 and standardizes to it; a row
    whose padj or log2FoldChange is nan never qualifies. *)
Theorem upreg_genes_iff (dea0 : list Dea.row) (g : string) :
  (In g (upreg_genes (with_gene_std dea0))
   <-> exists row,
         In row dea0
         /\ fgt (Dea.log2FoldChange row) (Fin (1 # 2)) = true
         /\ flt (Dea.padj row) (Fin (1 # 20)) = true
         /\ standardize_gene_name (Dea.gene row) = Some g)
  /\ (forall row,
        Dea.padj row = NaN \/ Dea.log2FoldChange row = NaN ->
        upregulated (row, standardize_gene_name (Dea.gene row)) = false).
Proof.
  split.
  - unfold upreg_genes, with_gene_std. rewrite in_flat_map. split.
    + intros ([row std] & Hin & Hg). apply filter_In in Hin as [Hin Hu].
      apply in_map_iff in Hin as (row' & [= <- <-] & Hin).
      unfold upregulated in Hu. cbn [fst snd] in *.
      apply andb_true_iff in Hu as [Hu _].
      apply andb_true_iff in Hu as [Hl Hp].
      exists row'. repeat split; try assumption.
      destruct (standardize_gene_name (Dea.gene row')) as [g'|];
        [|destruct Hg].
      destruct Hg as [->|[]]. reflexivity.
    + intros (row & Hin & Hl & Hp & Hs).
      exists (row, standardize_gene_name (Dea.gene row)). split.
      * apply filter_In. split; [apply in_map_iff; now exists row|].
        unfold upregulated. cbn [fst snd]. now rewrite Hl, Hp, Hs.
      * cbn [snd]. rewrite Hs. now left.
  - intros row [H|H]; unfold upregulated; cbn [fst snd]; rewrite H.
    + unfold flt. now rewrite andb_false_r.
    + reflexivity.
Qed.

Lemma upreg_genes_iff_witness :
  In "GeneA" (upreg_genes (with_gene_std Fixture.dea_duplicates))
  /\ upregulated (Dea.mk (Some "GeneC") (Fin 3) NaN,
                  standardize_gene_name (Some "GeneC")) = false.
Proof.
  split.
  - apply (proj1 (upreg_genes_iff Fixture.dea_duplicates "GeneA")).
    exists (Dea.mk (Some "GeneA.2") (Fin 3) (Fin (1 # 1000))).
    split; [right; right; left; reflexivity|]. now repeat split.
  - apply (proj2 (upreg_genes_iff Fixture.dea_duplicates "GeneA")
             (Dea.mk (Some "GeneC") (Fin 3) NaN)).
    left. reflexivity.
Defined.

Lemma subseq_refl {A : Type} (l : list A) : subseq l l.
Proof. induction l; constructor; assumption. Qed.

Lemma process_gene_at_most_one (dea : list (Dea.row * option string))
  (peaks_exo peaks_endo : dict DataFrame) (ann : list Gene.t)
  (n2i : name_to_info_t) (f : method_t) (gene : string) :
  map Rec.gene (process_gene dea peaks_exo peaks_endo ann n2i f gene) = []
  \/ map Rec.gene (process_gene dea peaks_exo peaks_endo ann n2i f gene)
     = [gene].
Proof.
  pose proof (process_gene_record dea peaks_exo peaks_endo ann n2i f gene)
    as H.
  unfold process_gene in *.
  destruct (score_gene dea peaks_exo peaks_endo ann n2i f gene)
    as [[r|]|]; [right|now left|now left].
  destruct (H r (or_introl eq_refl)) as [Hg _]. simpl. now rewrite Hg.
Qed.

(** X20.  A method's records follow the gene list: their genes, in order,
    are the gene list with the genes left out that were skipped (no peak,
    nan score or an exception), so there are never more records than
    listed genes. *)
Theorem enrichment_scores_in_gene_order
  (dea : list (Dea.row * option string))
  (peaks_exo peaks_endo : dict DataFrame) (ann : list Gene.t)
  (n2i : name_to_info_t) (f : method_t) :
  subseq (map Rec.gene
            (enrichment_scores dea peaks_exo peaks_endo ann n2i f))
         (upreg_genes dea)
  /\ (List.length (enrichment_scores dea peaks_exo peaks_endo ann n2i f)
      <= List.length (upreg_genes dea))%nat.
Proof.
  unfold enrichment_scores.
  induction (upreg_genes dea) as [|gene genes [IH1 IH2]];
    [split; [constructor|simpl; lia]|].
  cbn [flat_map]. rewrite map_app, length_app.
  destruct (process_gene_at_most_one dea peaks_exo peaks_endo ann n2i f gene)
    as [E|E]; rewrite E;
    apply (f_equal (@List.length string)) in E; rewrite length_map in E;
    rewrite E; simpl.
  - split; [now constructor|lia].
  - split; [now constructor|lia].
Qed.

(** ** Files written by [analyze_enrichment] and by the script *)

Section SortedWrites.

Variable sort_values : list Rec.t -> list Rec.t.
Variable data_dir : string.

Lemma fold_write_sorted_other (l : dict (list Rec.t)) (fs : csv_store)
  (path : string) :
  (forall m, In m (map fst l) -> path <> csv_path data_dir m) ->
  fold_left (write_sorted sort_values data_dir) l fs path = fs path.
Proof.
  revert fs. induction l as [|[k v] l IH]; intros fs Hm; [reflexivity|].
  cbn [fold_left]. rewrite IH by (intros m Hin; apply Hm; now right).
  unfold write_sorted, to_csv. cbn [fst snd].
  destruct (String.eqb_spec path (csv_path data_dir k)) as [E|E];
    [|reflexivity].
  exfalso. apply (Hm k); [now left|exact E].
Qed.

Lemma fold_write_sorted_in (l : dict (list Rec.t)) (fs : csv_store)
  (m : string) (df : list Rec.t) :
  NoDup (map fst l) -> In (m, df) l ->
  fold_left (write_sorted sort_values data_dir) l fs (csv_path data_dir m)
  = Some (sort_values df).
Proof.
  revert fs. induction l as [|[k v] l IH]; intros fs Hnd Hin; [easy|].
  cbn [map fst] in Hnd. inversion Hnd as [|? ? Hk Hnd']; subst.
  cbn [fold_left]. destruct Hin as [[= -> ->]|Hin].
  - rewrite fold_write_sorted_other.
    + unfold write_sorted, to_csv. cbn [fst snd].
      now rewrite String.eqb_refl.
    + intros m' Hm' E. apply csv_path_injective in E. now subst m'.
  - now apply IH.
Qed.

Lemma fold_write_plain_untouched (l : dict (list Rec.t)) (fs : csv_store)
  (path : string) :
  (forall m, In m (map fst l) -> path <> csv_path data_dir m) ->
  fold_left (write_plain data_dir) l fs path = fs path.
Proof.
  revert fs. induction l as [|[k v] l IH]; intros fs Hm; [reflexivity|].
  cbn [fold_left]. rewrite IH by (intros m Hin; apply Hm; now right).
  unfold write_plain, to_csv. cbn [fst snd].
  destruct (String.eqb_spec path (csv_path data_dir k)) as [E|E];
    [|reflexivity].
  exfalso. apply (Hm k); [now left|exact E].
Qed.

End SortedWrites.

Lemma subseq_keys_filter {A : Type} (P : string * A -> bool) (l : dict A) :
  subseq (map fst (filter P l)) (map fst l).
Proof.
  induction l as [|kv l IH]; [constructor|]. simpl.
  destruct (P kv); simpl; now constructor.
Qed.

Lemma keep_results_nonempty (scored : dict (list Rec.t)) (m : string)
  (df : list Rec.t) :
  In (m, df) (keep_results scored) -> In (m, df) scored /\ df <> [].
Proof.
  unfold keep_results. intros H. apply filter_In in H as [H Hne].
  split; [exact H|]. cbn [snd] in Hne. now destruct df.
Qed.

(** X21.  What [analyze_enrichment] returns and writes: the result keys are
    method names in the order of definition, a method is left out exactly
    when it has no record, each returned table is the method's records in
    gene order, its CSV file holds [sort_values] of that table, and no other
    path is written. *)
Theorem analyze_enrichment_writes
  (fisher_exact : list (list Z) -> result (float64 * float64))
  (log10 : Q -> Q) (sort_values : list Rec.t -> list Rec.t)
  (data_dir : string) (dea : list Dea.row) (exo endo : dict DataFrame)
  (ann : list Gene.t) (n2i : name_to_info_t) (fs : csv_store) :
  let results := fst (analyze_enrichment fisher_exact log10 sort_values
                        data_dir dea exo endo ann n2i fs) in
  let fs' := snd (analyze_enrichment fisher_exact log10 sort_values
                    data_dir dea exo endo ann n2i fs) in
  subseq (map fst results)
         ["signal_ratio"; "peak_count"; "combined_score"; "statistical";
          "width_weighted"; "coverage_score"; "area_integration"]
  /\ (forall m df,
        In (m, df) results ->
        df <> []
        /\ (exists f,
              In (m, f) (define_enrichment_methods fisher_exact log10
                           (calculate_total_genome_peaks exo endo))
              /\ df = enrichment_scores (with_gene_std dea) exo endo ann
                        n2i f)
        /\ fs' (csv_path data_dir m) = Some (sort_values df))
  /\ (forall path,
        (forall m, In m (map fst results) -> path <> csv_path data_dir m) ->
        fs' path = fs path).
Proof.
  intros results fs'.
  pose proof (analyze_enrichment_keys fisher_exact log10 sort_values
                data_dir dea exo endo ann n2i fs) as Hnd.
  fold results in Hnd. subst results fs'. unfold analyze_enrichment in *.
  cbn [fst snd] in *.
  set (methods := define_enrichment_methods fisher_exact log10
                    (calculate_total_genome_peaks exo endo)) in *.
  set (scored := map (fun m => (fst m,
                                enrichment_scores (with_gene_std dea) exo
                                  endo ann n2i (snd m))) methods) in *.
  split; [|split].
  - change ["signal_ratio"; "peak_count"; "combined_score"; "statistical";
            "width_weighted"; "coverage_score"; "area_integration"]
      with (map fst scored).
    apply subseq_keys_filter.
  - intros m df Hin. split; [|split].
    + now apply keep_results_nonempty in Hin.
    + apply keep_results_nonempty in Hin as [Hin _].
      apply in_map_iff in Hin as ([m' f] & [= <- <-] & Hf).
      now exists f.
    + now apply fold_write_sorted_in.
  - intros path Hp. now apply fold_write_sorted_other.
Qed.

Lemma analyze_enrichment_writes_witness :
  snd (analyze_enrichment Fixture.fisher_stub Fixture.log10_stub
         (fun df => df) "data" Fixture.dea_duplicates
         Fixture.peaks_exo_near Fixture.peaks_near
         [Fixture.geneA; Fixture.geneB] Fixture.name_to_info
         Fixture.no_files)
      (csv_path "data" "signal_ratio")
  = Some [Fixture.record_geneA; Fixture.record_geneA].
Proof.
  apply (proj1 (proj2 (analyze_enrichment_writes Fixture.fisher_stub
                         Fixture.log10_stub (fun df => df) "data"
                         Fixture.dea_duplicates Fixture.peaks_exo_near
                         Fixture.peaks_near [Fixture.geneA; Fixture.geneB]
                         Fixture.name_to_info Fixture.no_files))
           "signal_ratio" [Fixture.record_geneA; Fixture.record_geneA]).
  left. reflexivity.
Defined.

Lemma peak_widths_exn (items : dict DataFrame) (e : exn) :
  peak_widths items = Raise e -> e = KeyError "end".
Proof.
  induction items as [|[k peaks] rest IH]; [discriminate|].
  cbn [peak_widths]. destruct peaks as [|rows]; [now intros [= <-]|].
  cbn [column bind].
  destruct (peak_widths rest) as [l|e']; cbn [bind]; [discriminate|].
  intros [= <-]. now apply IH.
Qed.

Lemma peak_widths_columnless (items : dict DataFrame) :
  In EmptyFrame (dict_values items) ->
  peak_widths items = Raise (KeyError "end").
Proof.
  induction items as [|[k peaks] rest IH]; intros H; [destruct H|].
  cbn [peak_widths]. destruct peaks as [|rows]; [reflexivity|].
  destruct H as [H|H]; [discriminate|]. cbn [column bind].
  now rewrite (IH H).
Qed.

(** X22.  A peak file that was missing or unreadable stops the script even
    though [load_data] accepts it: the width plot reads the end column of
    every loaded table, so one column-less table makes the script raise
    KeyError before any scoring, and no CSV is written. *)
Theorem main_aborts_on_columnless_table
  (fisher_exact : list (list Z) -> result (float64 * float64))
  (log10 : Q -> Q) (sort_values : list Rec.t -> list Rec.t)
  (w : World) (fs : csv_store) (dea : list Dea.row)
  (peaks_exo peaks_endo : dict DataFrame) (ann : list Gene.t)
  (n2i : name_to_info_t) :
  load_data w = Ok (dea, peaks_exo, peaks_endo, ann, n2i) ->
  In EmptyFrame (dict_values peaks_exo ++ dict_values peaks_endo) ->
  main fisher_exact log10 sort_values w fs = Raise (KeyError "end").
Proof.
  intros Hl Hin. unfold main. rewrite Hl. cbn [bind].
  assert (Hp : plot_peak_width_distributions peaks_exo peaks_endo
               = Raise (KeyError "end")).
  { unfold plot_peak_width_distributions.
    apply in_app_or in Hin as [H|H].
    - now rewrite (peak_widths_columnless peaks_exo H).
    - rewrite (peak_widths_columnless peaks_endo H).
      destruct (peak_widths peaks_exo) as [l|e] eqn:E; [reflexivity|].
      now rewrite (peak_widths_exn peaks_exo e E). }
  now rewrite Hp.
Qed.

Lemma main_aborts_on_columnless_table_witness :
  main Fixture.fisher_stub Fixture.log10_stub (fun df => df)
    Fixture.world_one_missing Fixture.no_files
  = Raise (KeyError "end").
Proof.
  apply (main_aborts_on_columnless_table Fixture.fisher_stub
           Fixture.log10_stub (fun df => df) Fixture.world_one_missing
           Fixture.no_files Fixture.dea_two_genes
           (map (load_sample Fixture.world_one_missing) exo_samples)
           (map (load_sample Fixture.world_one_missing) endo_samples)
           [Fixture.geneA; Fixture.geneB] Fixture.name_to_info).
  - reflexivity.
  - apply in_or_app. left. right. right. left. reflexivity.
Defined.

(** After the plain writes the sorted ones have left no trace. *)
Lemma plain_writes_hide_sorted (sort_values : list Rec.t -> list Rec.t)
  (data_dir : string) (l : dict (list Rec.t)) (fs : csv_store)
  (path : string) :
  NoDup (map fst l) ->
  fold_left (write_plain data_dir) l
    (fold_left (write_sorted sort_values data_dir) l fs) path
  = fold_left (write_plain data_dir) l fs path.
Proof.
  intros Hnd.
  destruct (in_dec string_dec path (map (csv_path data_dir) (map fst l)))
    as [Hin|Hout].
  - apply in_map_iff in Hin as (m & <- & Hm).
    apply in_map_iff in Hm as ([m' df] & <- & Hin). cbn [fst].
    now rewrite !(fold_write_plain_in data_dir l _ m' df Hnd Hin).
  - assert (H : forall m, In m (map fst l) -> path <> csv_path data_dir m).
    { intros m Hm E. apply Hout. subst path. now apply in_map. }
    rewrite !(fold_write_plain_untouched data_dir l _ path H).
    now apply fold_write_sorted_other.
Qed.

(** X23.  After a run that completes, the file
    [enrichment_<method>_NSC.csv] of every method in [results] holds that
    method's non-empty table as returned, in gene order.  A method that
    scored no gene is not in [results] and its file is left as it was before
    the run, so a table from an earlier run stays on disk.  Running with
    any other [sort_values] gives the same results and the same per-method
    files. *)
Theorem main_files
  (fisher_exact : list (list Z) -> result (float64 * float64))
  (log10 : Q -> Q) (sort_values : list Rec.t -> list Rec.t)
  (w : World) (fs0 fs : csv_store) (results : dict (list Rec.t)) :
  main fisher_exact log10 sort_values w fs0 = Ok (results, fs) ->
  (forall m df,
     In (m, df) results ->
     df <> [] /\ fs (csv_path (DATA_DIR w) m) = Some df)
  /\ (forall m,
        In m (map fst (define_enrichment_methods fisher_exact log10 0)) ->
        ~ In m (map fst results) ->
        fs (csv_path (DATA_DIR w) m) = fs0 (csv_path (DATA_DIR w) m))
  /\ (forall sort_values',
        exists fs',
          main fisher_exact log10 sort_values' w fs0 = Ok (results, fs')
          /\ forall m,
               In m (map fst (define_enrichment_methods fisher_exact
                                log10 0)) ->
               fs' (csv_path (DATA_DIR w) m)
               = fs (csv_path (DATA_DIR w) m)).
Proof.
  unfold main.
  destruct (load_data w) as [[[[[dea exo] endo] ann] n2i]|]; [|discriminate].
  cbn [bind].
  destruct (plot_peak_width_distributions exo endo); [|discriminate].
  cbn [bind].
  pose proof (fun s => analyze_enrichment_keys fisher_exact log10 s
                         (DATA_DIR w) dea exo endo ann n2i fs0) as Hkeys.
  unfold analyze_enrichment in *. cbn [fst] in Hkeys.
  set (R := keep_results _) in *.
  intros H.
  assert (HR : R = results) by congruence.
  assert (Hfs : fold_left (write_plain (DATA_DIR w)) R
                  (fold_left (write_sorted sort_values (DATA_DIR w)) R fs0)
                = fs) by congruence.
  clear H. subst results fs.
  pose proof (Hkeys sort_values) as Hnd.
  split; [|split].
  - intros m df Hin. split.
    + exact (proj2 (keep_results_nonempty _ m df Hin)).
    + now apply fold_write_plain_in.
  - intros m _ Hm.
    rewrite (plain_writes_hide_sorted sort_values (DATA_DIR w) R fs0 _ Hnd).
    apply fold_write_plain_untouched.
    intros m' Hm' E. apply csv_path_injective in E. now subst m'.
  - intros sort_values'. eexists. split; [reflexivity|].
    intros m _.
    now rewrite !(plain_writes_hide_sorted _ (DATA_DIR w) R fs0 _ Hnd).
Qed.

Lemma main_files_witness :
  exists results fs,
    main Fixture.fisher_raising Fixture.log10_stub (fun df => df)
      (Fixture.world Fixture.dea_two_genes) Fixture.stale_files
    = Ok (results, fs)
    /\ map fst results
       = ["signal_ratio"; "peak_count"; "combined_score"; "width_weighted";
          "coverage_score"; "area_integration"]
    /\ fs "data/enrichment_statistical_NSC.csv"
       = Some [Fixture.record_geneA]
    /\ forall df,
         In ("signal_ratio", df) results ->
         fs "data/enrichment_signal_ratio_NSC.csv" = Some df.
Proof.
  destruct (main Fixture.fisher_raising Fixture.log10_stub (fun df => df)
              (Fixture.world Fixture.dea_two_genes) Fixture.stale_files)
    as [[results fs]|e] eqn:E; [|vm_compute in E; discriminate].
  exists results, fs. split; [reflexivity|].
  assert (Hk : map fst results
               = ["signal_ratio"; "peak_count"; "combined_score";
                  "width_weighted"; "coverage_score"; "area_integration"]).
  { pose proof E as E'. vm_compute in E'.
    injection E' as <- _. reflexivity. }
  destruct (main_files Fixture.fisher_raising Fixture.log10_stub
              (fun df => df) (Fixture.world Fixture.dea_two_genes)
              Fixture.stale_files fs results E) as (Ha & Hb & _).
  split; [exact Hk|]. split.
  - refine (eq_trans (Hb "statistical" _ _) _).
    + simpl. tauto.
    + rewrite Hk. simpl. intuition discriminate.
    + reflexivity.
  - intros df Hin. exact (proj2 (Ha "signal_ratio" df Hin)).
Defined.

(** ** The peak distribution summary *)

Lemma summarize_table_partition (df : list Rec.t) :
  Forall (fun r => isnan (Rec.enrichment_score r) = false) df ->
  Distribution.total_genes (summarize_table df)
  = (Distribution.exo_only (summarize_table df)
     + Distribution.endo_only (summarize_table df)
     + Distribution.both (summarize_table df))%nat.
Proof.
  unfold summarize_table, count_rows.
  cbn [Distribution.total_genes Distribution.exo_only
       Distribution.endo_only Distribution.both].
  induction df as [|r df IH]; intros H; [reflexivity|].
  inversion H as [|? ? Hr Hdf]; subst. specialize (IH Hdf).
  cbn [filter List.length]. unfold fne in *. rewrite Hr.
  destruct (Rec.enrichment_score r) as [q| | |]; try discriminate;
    cbn [feq negb andb]; try destruct (Qeq_bool q 0);
    cbn [negb andb List.length]; lia.
Qed.

Lemma enrichment_scores_not_nan (dea : list (Dea.row * option string))
  (peaks_exo peaks_endo : dict DataFrame) (ann : list Gene.t)
  (n2i : name_to_info_t) (f : method_t) :
  Forall (fun r => isnan (Rec.enrichment_score r) = false)
         (enrichment_scores dea peaks_exo peaks_endo ann n2i f).
Proof.
  apply Forall_forall. intros r Hr. unfold enrichment_scores in Hr.
  apply in_flat_map in Hr as (gene & _ & Hr).
  apply process_gene_In, score_gene_Some in Hr
    as (sx & se & row & Hx & He & Hne & Hf & Hnan & Hrest).
  exact Hnan.
Qed.

(** X24.  In the peak distribution summary of a run, every method's line
    adds up: the genes with score +inf, those with score 0 and the
    remaining ones make up the total, which is at least 1. *)
Theorem summarize_peak_distribution_adds_up
  (fisher_exact : list (list Z) -> result (float64 * float64))
  (log10 : Q -> Q) (sort_values : list Rec.t -> list Rec.t)
  (data_dir : string) (dea : list Dea.row) (exo endo : dict DataFrame)
  (ann : list Gene.t) (n2i : name_to_info_t) (fs : csv_store)
  (m : string) (d : Distribution.t) :
  In (m, d)
     (summarize_peak_distribution
        (fst (analyze_enrichment fisher_exact log10 sort_values data_dir
                dea exo endo ann n2i fs))) ->
  Distribution.total_genes d
  = (Distribution.exo_only d + Distribution.endo_only d
     + Distribution.both d)%nat
  /\ (1 <= Distribution.total_genes d)%nat.
Proof.
  unfold summarize_peak_distribution, analyze_enrichment. cbn [fst].
  intros H. apply in_map_iff in H as ([m' df] & [= <- <-] & Hin).
  apply keep_results_nonempty in Hin as [Hin Hne].
  apply in_map_iff in Hin as ([m'' f] & [= <- <-] & _). cbn [snd] in *.
  split.
  - apply summarize_table_partition, enrichment_scores_not_nan.
  - cbn. destruct (enrichment_scores _ _ _ _ _ _); [congruence|simpl; lia].
Qed.

Lemma summarize_peak_distribution_adds_up_witness :
  Distribution.total_genes (Distribution.mk 2 0 0 2)
  = (Distribution.exo_only (Distribution.mk 2 0 0 2)
     + Distribution.endo_only (Distribution.mk 2 0 0 2)
     + Distribution.both (Distribution.mk 2 0 0 2))%nat
  /\ (1 <= Distribution.total_genes (Distribution.mk 2 0 0 2))%nat.
Proof.
  apply (summarize_peak_distribution_adds_up Fixture.fisher_stub
           Fixture.log10_stub (fun df => df) "data"
           Fixture.dea_duplicates Fixture.peaks_exo_near Fixture.peaks_near
           [Fixture.geneA; Fixture.geneB] Fixture.name_to_info
           Fixture.no_files "signal_ratio").
  left. reflexivity.
Defined.

(** ** The gene annotation index *)

Lemma dict_get_set {A : Type} (d : dict A) (k k' : string) (v : A) :
  dict_get (dict_set d k v) k'
  = if String.eqb k k' then Some v else dict_get d k'.
Proof.
  induction d as [|[k0 v0] d IH]; simpl; [reflexivity|].
  destruct (String.eqb_spec k0 k) as [->|Hne]; simpl.
  - destruct (String.eqb k k'); reflexivity.
  - rewrite IH. destruct (String.eqb_spec k0 k') as [->|Hne'];
      [|reflexivity].
    apply String.eqb_neq in Hne. rewrite String.eqb_sym in Hne.
    now rewrite Hne.
Qed.

Lemma dict_set_keys {A : Type} (d : dict A) (k : string) (v : A) :
  NoDup (map fst d) ->
  NoDup (map fst (dict_set d k v))
  /\ forall x, In x (map fst (dict_set d k v)) <-> x = k \/ In x (map fst d).
Proof.
  induction d as [|[k0 v0] d IH]; intros H; simpl.
  - split; [repeat constructor; easy|]. intros x. intuition.
  - inversion H as [|? ? Hk Hd]; subst. destruct (IH Hd) as [IH1 IH2].
    destruct (String.eqb_spec k0 k) as [->|Hne]; simpl.
    + split; [now constructor|]. intros x. intuition.
    + split.
      * constructor; [|exact IH1]. rewrite IH2. intros [E|E]; congruence.
      * intros x. rewrite IH2. intuition.
Qed.

Lemma index_row_get (d : name_to_info_t) (row : Gene.t) (k : string) :
  dict_get (index_row d row) k
  = if has_key k row then Some row else dict_get d k.
Proof.
  unfold index_row, has_key, row_keys.
  destruct (Gene.gene_name row) as [n|], (Gene.gene_id row) as [i|];
    rewrite ?standardize_gene_name_Some; cbn [app existsb];
    rewrite ?dict_get_set, ?orb_false_r;
    repeat match goal with
           | |- context [String.eqb ?a k] =>
               rewrite (String.eqb_sym a k)
           end;
    repeat match goal with
           | |- context [String.eqb k ?a] =>
               destruct (String.eqb k a); cbn [orb]
           end; reflexivity.
Qed.

Lemma index_row_keys (d : name_to_info_t) (row : Gene.t) :
  NoDup (map fst d) -> NoDup (map fst (index_row d row)).
Proof.
  intros H. unfold index_row.
  destruct (Gene.gene_name row) as [n|], (Gene.gene_id row) as [i|];
    rewrite ?standardize_gene_name_Some;
    repeat (apply dict_set_keys); exact H.
Qed.

Lemma find_app {A : Type} (P : A -> bool) (l1 l2 : list A) :
  find P (l1 ++ l2)
  = match find P l1 with Some x => Some x | None => find P l2 end.
Proof.
  induction l1 as [|a l1 IH]; [reflexivity|]. simpl.
  now destruct (P a).
Qed.

Lemma fold_index_row_get (rows : list Gene.t) (d : name_to_info_t)
  (k : string) :
  dict_get (fold_left index_row rows d) k
  = match find (has_key k) (rev rows) with
    | Some row => Some row
    | None => dict_get d k
    end.
Proof.
  revert d. induction rows as [|row rows IH]; intros d; [reflexivity|].
  cbn [fold_left rev]. rewrite IH, find_app, index_row_get. cbn [find].
  destruct (find (has_key k) (rev rows)); [reflexivity|].
  now destruct (has_key k row).
Qed.

Lemma fold_index_row_keys (rows : list Gene.t) (d : name_to_info_t) :
  NoDup (map fst d) -> NoDup (map fst (fold_left index_row rows d)).
Proof.
  revert d. induction rows as [|row rows IH]; intros d H; [exact H|].
  cbn [fold_left]. now apply IH, index_row_keys.
Qed.

(** X25.  The index built from the annotation rows has each key once; a
    key resolves to the last row, in table order, whose standardized gene
    name or gene id it is, and to nothing when no row carries it.  A row
    with both a name and an id is found under both unless a later row
    takes the key over. *)
Theorem build_name_to_info_lookup (rows : list Gene.t) (k : string) :
  NoDup (map fst (build_name_to_info rows))
  /\ dict_get (build_name_to_info rows) k = find (has_key k) (rev rows)
  /\ (forall row,
        In row rows -> In k (row_keys row) ->
        exists row',
          dict_get (build_name_to_info rows) k = Some row'
          /\ In row' rows /\ In k (row_keys row')).
Proof.
  unfold build_name_to_info.
  assert (Hget : dict_get (fold_left index_row rows []) k
                 = find (has_key k) (rev rows)).
  { rewrite fold_index_row_get. now destruct (find (has_key k) (rev rows)). }
  split; [apply fold_index_row_keys; constructor|].
  split; [exact Hget|].
  intros row Hin Hk. rewrite Hget.
  destruct (find (has_key k) (rev rows)) as [row'|] eqn:E.
  - exists row'. apply find_some in E as [Hin' Hk'].
    split; [reflexivity|]. split; [now apply in_rev|].
    unfold has_key in Hk'. apply existsb_exists in Hk' as (x & Hx & Ex).
    apply String.eqb_eq in Ex. now subst x.
  - exfalso. apply in_rev in Hin.
    pose proof (find_none _ _ E row Hin) as Hf.
    assert (Ht : has_key k row = true).
    { unfold has_key. apply existsb_exists. exists k.
      split; [exact Hk|apply String.eqb_refl]. }
    congruence.
Qed.

Lemma build_name_to_info_lookup_witness :
  exists row',
    dict_get (build_name_to_info [Fixture.geneA; Fixture.geneB]) "ENSG02"
    = Some row'
    /\ In row' [Fixture.geneA; Fixture.geneB]
    /\ In "ENSG02" (row_keys row').
Proof.
  apply (proj2 (proj2 (build_name_to_info_lookup
                         [Fixture.geneA; Fixture.geneB] "ENSG02"))
           Fixture.geneB).
  - right. left. reflexivity.
  - right. left. reflexivity.
Defined.

(** ** Parsing the attribute column *)

Lemma py_split_no_sep (sep : ascii) (s : string) :
  contains sep s = false -> py_split sep s = [s].
Proof.
  induction s as [|c r IH]; [reflexivity|]. simpl. intros H.
  apply orb_false_iff in H as [Hc Hr]. now rewrite Hc, (IH Hr).
Qed.

Lemma py_split_append (sep : ascii) (a b : string) :
  contains sep a = false ->
  py_split sep (a ++ String sep b) = a :: py_split sep b.
Proof.
  induction a as [|c r IH]; simpl; intros H.
  - now rewrite Ascii.eqb_refl.
  - apply orb_false_iff in H as [Hc Hr]. now rewrite Hc, (IH Hr).
Qed.

Lemma append_assoc (a b c : string) : ((a ++ b) ++ c = a ++ (b ++ c))%string.
Proof. induction a as [|x a IH]; simpl; [reflexivity|]. now rewrite IH. Qed.

Lemma rstrip_ends (s : string) (c : ascii) :
  is_space c = false ->
  rstrip (s ++ String c EmptyString) = (s ++ String c EmptyString)%string.
Proof.
  intros Hc. induction s as [|a s IH]; simpl; [now rewrite Hc|].
  rewrite IH. now destruct s.
Qed.

Lemma rstrip_quoted (s v : string) :
  rstrip (s ++ quoted v) = (s ++ quoted v)%string.
Proof.
  unfold quoted.
  change (String dquote (v ++ String dquote ""))%string
    with (String dquote v ++ String dquote "")%string.
  rewrite <- append_assoc. now apply rstrip_ends.
Qed.

Lemma quoted_value_keyed (key v : string) :
  contains dquote key = false -> contains dquote v = false ->
  quoted_value (key ++ quoted v) = Ok v.
Proof.
  intros Hk Hv. unfold quoted_value, quoted.
  rewrite (py_split_append dquote key _ Hk).
  now rewrite (py_split_append dquote v _ Hv).
Qed.

(** X26.  An attribute string in the GENCODE layout is read back: when the
    three values contain no double quote and no semicolon,
    [extract_gene_info] returns exactly them. *)
Theorem extract_gene_info_gencode (gene_id gene_type gene_name : string) :
  contains dquote gene_id = false -> contains ";" gene_id = false ->
  contains dquote gene_type = false -> contains ";" gene_type = false ->
  contains dquote gene_name = false -> contains ";" gene_name = false ->
  extract_gene_info (gencode_attributes gene_id gene_type gene_name)
  = Ok (Info.mk (Some gene_name) (Some gene_id) (Some gene_type)).
Proof.
  intros Hqi Hsi Hqt Hst Hqn Hsn.
  unfold extract_gene_info, gencode_attributes.
  assert (Hf : forall key v,
             contains ";" key = false -> contains ";" v = false ->
             contains ";" (key ++ quoted v) = false).
  { intros key v Hk Hv. unfold quoted.
    rewrite contains_append. cbn [contains].
    rewrite contains_append, Hk, Hv. reflexivity. }
  rewrite (py_split_append ";" _ _ (Hf "gene_id " gene_id eq_refl Hsi)).
  rewrite (py_split_append ";" _ _ (Hf " gene_type " gene_type eq_refl Hst)).
  rewrite (py_split_append ";" _ _ (Hf " gene_name " gene_name eq_refl Hsn)).
  cbn [py_split extract_fields].
  assert (H1 : extract_field Info.empty ("gene_id " ++ quoted gene_id)
               = Ok (Info.mk None (Some gene_id) None)).
  { unfold extract_field, strip.
    change (lstrip ("gene_id " ++ quoted gene_id))
      with ("gene_id " ++ quoted gene_id)%string.
    rewrite rstrip_quoted.
    change (startswith ("gene_id " ++ quoted gene_id) "gene_name")
      with false.
    change (startswith ("gene_id " ++ quoted gene_id) "gene_id") with true.
    cbv iota. now rewrite (quoted_value_keyed "gene_id " gene_id eq_refl Hqi). }
  rewrite H1. cbn [bind].
  assert (H2 : extract_field (Info.mk None (Some gene_id) None)
                 (" gene_type " ++ quoted gene_type)
               = Ok (Info.mk None (Some gene_id) (Some gene_type))).
  { unfold extract_field, strip.
    change (lstrip (" gene_type " ++ quoted gene_type))
      with ("gene_type " ++ quoted gene_type)%string.
    rewrite rstrip_quoted.
    change (startswith ("gene_type " ++ quoted gene_type) "gene_name")
      with false.
    change (startswith ("gene_type " ++ quoted gene_type) "gene_id")
      with false.
    change (startswith ("gene_type " ++ quoted gene_type) "gene_type")
      with true.
    cbv iota.
    now rewrite (quoted_value_keyed "gene_type " gene_type eq_refl Hqt). }
  rewrite H2. cbn [bind].
  assert (H3 : extract_field (Info.mk None (Some gene_id) (Some gene_type))
                 (" gene_name " ++ quoted gene_name)
               = Ok (Info.mk (Some gene_name) (Some gene_id)
                       (Some gene_type))).
  { unfold extract_field, strip.
    change (lstrip (" gene_name " ++ quoted gene_name))
      with ("gene_name " ++ quoted gene_name)%string.
    rewrite rstrip_quoted.
    change (startswith ("gene_name " ++ quoted gene_name) "gene_name")
      with true.
    cbv iota.
    now rewrite (quoted_value_keyed "gene_name " gene_name eq_refl Hqn). }
  rewrite H3. reflexivity.
Qed.

Lemma extract_gene_info_gencode_witness :
  extract_gene_info
    (gencode_attributes "ENSMUSG00000051951.5" "protein_coding" "Xkr4")
  = Ok (Info.mk (Some "Xkr4") (Some "ENSMUSG00000051951.5")
          (Some "protein_coding")).
Proof.
  apply (extract_gene_info_gencode "ENSMUSG00000051951.5" "protein_coding"
           "Xkr4"); reflexivity.
Defined.

Lemma lstrip_contains (c : ascii) (s : string) :
  contains c s = false -> contains c (lstrip s) = false.
Proof.
  induction s as [|a r IH]; simpl; [easy|].
  intros H. destruct (is_space a); [|exact H].
  apply orb_false_iff in H as [_ Hr]. now apply IH.
Qed.

Lemma rstrip_contains (c : ascii) (s : string) :
  contains c s = false -> contains c (rstrip s) = false.
Proof.
  induction s as [|a r IH]; simpl; [easy|].
  intros H. apply orb_false_iff in H as [Ha Hr]. specialize (IH Hr).
  destruct (rstrip r) as [|d r'] eqn:E.
  - destruct (is_space a); simpl; [reflexivity|now rewrite Ha].
  - change (contains c (String a (String d r')))
      with (Ascii.eqb a c || contains c (String d r')).
    now rewrite Ha, IH.
Qed.

Lemma extract_field_exn (info : Info.t) (field : string) (e : exn) :
  extract_field info field = Raise e ->
  e = IndexError "list index out of range".
Proof.
  unfold extract_field, quoted_value.
  destruct (startswith (strip field) "gene_name");
    [|destruct (startswith (strip field) "gene_id");
      [|destruct (startswith (strip field) "gene_type"); [|discriminate]]];
    destruct (py_split dquote (strip field)) as [|a [|b l]]; cbn [bind];
    try discriminate; now intros [= <-].
Qed.

Lemma extract_field_unquoted (info : Info.t) (field : string) :
  keyed field = true -> contains dquote field = false ->
  extract_field info field = Raise (IndexError "list index out of range").
Proof.
  intros Hk Hq. unfold keyed in Hk. unfold extract_field, quoted_value.
  assert (Hs : contains dquote (strip field) = false).
  { now apply rstrip_contains, lstrip_contains. }
  rewrite (py_split_no_sep dquote (strip field) Hs).
  destruct (startswith (strip field) "gene_name"); [reflexivity|].
  destruct (startswith (strip field) "gene_id"); [reflexivity|].
  destruct (startswith (strip field) "gene_type"); [reflexivity|].
  discriminate Hk.
Qed.

(** X27.  Parsing is all or nothing: the only exception is IndexError, and
    it is raised as soon as one field of the attribute string starts with
    gene_name, gene_id or gene_type but holds no double quote (a key=value
    attribute, for one), however well-formed the other fields are. *)
Theorem extract_gene_info_unquoted (attr field : string) :
  (forall e, extract_gene_info attr = Raise e ->
             e = IndexError "list index out of range")
  /\ (In field (py_split ";" attr) ->
      keyed field = true -> contains dquote field = false ->
      extract_gene_info attr = Raise (IndexError "list index out of range")).
Proof.
  unfold extract_gene_info.
  generalize Info.empty as info. generalize (py_split ";" attr) as fields.
  induction fields as [|f fields IH]; intros info.
  - split; [discriminate|intros []].
  - cbn [extract_fields]. split.
    + intros e. destruct (extract_field info f) as [info'|e'] eqn:E;
        cbn [bind].
      * apply IH.
      * intros [= <-]. now apply extract_field_exn in E.
    + intros Hin Hk Hq.
      destruct (extract_field info f) as [info'|e'] eqn:E; cbn [bind].
      * destruct Hin as [->|Hin].
        -- now rewrite (extract_field_unquoted info field Hk Hq) in E.
        -- now apply IH.
      * now rewrite (extract_field_exn info f e' E).
Qed.

Lemma extract_gene_info_unquoted_witness :
  extract_gene_info "ID=gene:X; gene_id=ENSG01; Name=Abc"
  = Raise (IndexError "list index out of range").
Proof.
  apply (proj2 (extract_gene_info_unquoted
                  "ID=gene:X; gene_id=ENSG01; Name=Abc" " gene_id=ENSG01")).
  - right. left. reflexivity.
  - reflexivity.
  - reflexivity.
Defined.
